(** * silicone: database crunchers that infer a follower timeseries from a leader

    Shallow embedding of [silicone/database_crunchers/ssp_specific_relation.py]
    (class [DatabaseCruncherSSPSpecificRelation]: [derive_relationship] and the
    [filler] closure it returns) together with the collaborators it calls, and
    of the parts of the rolling-window quantile learner that
    [tests/integration/crunchers/test_cruncher_quantile_rolling_windows.py]
    exercises.

    Numbers: the Python code computes with IEEE doubles; here every value is an
    exact rational ([Q]), results are compared with [==] ([Qeq]), and a missing
    cell of a wide table (NaN in pandas) is an absent cell.

    Objects: pyam frames and pandas tables are Python objects that the code
    reads, copies and updates in place.  They live in a store ([heap]);
    [derive_relationship] and [filler] are written in a small
    state-and-exception monad over that store, so that what a call reads,
    allocates and overwrites is part of the model.

    Closures: [derive_relationship] returns the function [filler], which
    refers to six variables of the call that made it.  Here the call returns
    the record of those variables ([Relationship]) and [filler] takes it as
    its first argument.

    Layout: the definitions come first (pyam and pandas operations,
    exceptions, the store, [silicone/utils.py], the cruncher, the quantile
    learner, the data of the tests), then the lemmas, then one section per
    claim. *)

From Stdlib Require Import List String Ascii ZArith QArith Lia Lqa.
From Stdlib Require Import Permutation Sorted.
From stdpp Require Import gmap strings.
Import ListNotations.

(** ** The labeled timeseries table (pyam.IamDataFrame) *)

(** [IamDataFrame.time_col] is either ["year"] or ["time"]. *)
Inductive TimeCol := Year | Datetime.

Definition TimeCol_eqb (a b : TimeCol) : bool :=
  match a, b with
  | Year, Year | Datetime, Datetime => true
  | _, _ => false
  end.

(** One row of the long table [IamDataFrame.data]. *)
Record Row := {
  r_model : string;
  r_scenario : string;
  r_region : string;
  r_variable : string;
  r_unit : string;
  r_time : Z;
  r_value : Q }.

Record IamDataFrame := {
  time_col : TimeCol;
  data : list Row }.

(** The index of a series in the wide table [IamDataFrame.timeseries()]. *)
Record Index := {
  i_model : string;
  i_scenario : string;
  i_region : string;
  i_variable : string;
  i_unit : string }.

#[global] Instance Index_eq_dec : EqDecision Index.
Proof. solve_decision. Defined.

Definition index_of (r : Row) : Index :=
  {| i_model := r_model r; i_scenario := r_scenario r; i_region := r_region r;
     i_variable := r_variable r; i_unit := r_unit r |}.

Definition row_of (i : Index) (c : Z * Q) : Row :=
  {| r_model := i_model i; r_scenario := i_scenario i; r_region := i_region i;
     r_variable := i_variable i; r_unit := i_unit i;
     r_time := fst c; r_value := snd c |}.

(** A pandas table in wide form: one column per time step and one row per
    series; a row keeps the cells it has (an absent cell is NaN).  [col_kind]
    records whether the column labels are years or datetimes, [indexed]
    whether the identity of the series is the row index or has been reset to
    ordinary columns. *)
Record DataFrame := {
  col_kind : TimeCol;
  indexed : bool;
  columns : list Z;
  rows : list (Index * list (Z * Q)) }.

(** [Series.unique()]: the distinct values in order of first appearance. *)
Fixpoint unique {A} `{EqDecision A} (l : list A) : list A :=
  match l with
  | [] => []
  | x :: t => x :: List.filter (fun y => negb (bool_decide (y = x))) (unique t)
  end.

Definition nunique {A} `{EqDecision A} (l : list A) : nat := length (unique l).

(** Sorted list of the distinct elements of a list, for a three-way
    comparison [cmp]. *)
Section SortedUnique.
Context {A : Type} (cmp : A -> A -> comparison).

Fixpoint insert_unique (x : A) (l : list A) : list A :=
  match l with
  | [] => [x]
  | h :: t =>
      match cmp x h with
      | Lt => x :: l
      | Eq => l
      | Gt => h :: insert_unique x t
      end
  end.

Definition sorted_unique (l : list A) : list A :=
  fold_right insert_unique [] l.
End SortedUnique.

Definition mem_time (t : Z) (l : list Z) : bool := existsb (Z.eqb t) l.

Definition mem_string (s : string) (l : list string) : bool :=
  existsb (String.eqb s) l.

(** pyam matches a filter pattern against a name with [*] as a wildcard. *)
Fixpoint pattern_match (p : string) : string -> bool :=
  match p with
  | EmptyString => fun s => match s with EmptyString => true | _ => false end
  | String c p' =>
      if Ascii.eqb c "*"%char then
        fix star (s : string) : bool :=
          pattern_match p' s
          || match s with EmptyString => false | String _ s' => star s' end
      else
        fun s =>
          match s with
          | String d s' => Ascii.eqb c d && pattern_match p' s'
          | EmptyString => false
          end
  end.

(** [df.filter(variable=vars)]: a new frame with the rows of those variables. *)
Definition filter_variable (vars : list string) (df : IamDataFrame)
  : IamDataFrame :=
  {| time_col := time_col df;
     data := List.filter (fun r => mem_string (r_variable r) vars) (data df) |}.

(** [df.filter(scenario=pat, variable=vars)]. *)
Definition filter_scenario_variable (pat : string) (vars : list string)
    (df : IamDataFrame) : IamDataFrame :=
  {| time_col := time_col df;
     data := List.filter
               (fun r => pattern_match pat (r_scenario r)
                         && mem_string (r_variable r) vars) (data df) |}.

Definition cells_of (i : Index) (l : list Row) : list (Z * Q) :=
  map (fun r => (r_time r, r_value r))
      (List.filter (fun r => bool_decide (index_of r = i)) l).

(** [df.timeseries()]: a new wide table, the columns sorted by time.  pyam
    keeps one value per series and time, so the cells of a series are its
    rows.  The series stand in the order in which the frame first mentions
    them (pandas sorts them by label); nothing below depends on the order of
    rows, and the properties of the result are stated up to permutation. *)
Definition timeseries (df : IamDataFrame) : DataFrame :=
  {| col_kind := time_col df;
     indexed := true;
     columns := sorted_unique Z.compare (map r_time (data df));
     rows := map (fun i => (i, cells_of i (data df)))
                 (unique (map index_of (data df))) |}.

(** [IamDataFrame(table)]: a new frame from a wide table; NaN cells give no
    row. *)
Definition IamDataFrame_of (t : DataFrame) : IamDataFrame :=
  {| time_col := col_kind t;
     data := flat_map (fun ic => map (row_of (fst ic)) (snd ic)) (rows t) |}.

(** [table[time] = f(table[time])] on an existing column. *)
Definition assign_column (time : Z) (f : Q -> Q) (t : DataFrame) : DataFrame :=
  {| col_kind := col_kind t;
     indexed := indexed t;
     columns := columns t;
     rows := map (fun ic =>
                    (fst ic,
                     map (fun c => if Z.eqb (fst c) time then (fst c, f (snd c))
                                   else c) (snd ic)))
                 (rows t) |}.

(** [table.reset_index()]: the index levels become ordinary columns. *)
Definition reset_index (t : DataFrame) : DataFrame :=
  {| col_kind := col_kind t;
     indexed := false;
     columns := columns t;
     rows := rows t |}.

(** [table["variable"] = v] and [table["unit"] = u] once the index has been
    reset to ordinary columns. *)
Definition set_variable (v : string) (t : DataFrame) : DataFrame :=
  {| col_kind := col_kind t;
     indexed := indexed t;
     columns := columns t;
     rows := map (fun ic =>
                    ({| i_model := i_model (fst ic);
                        i_scenario := i_scenario (fst ic);
                        i_region := i_region (fst ic);
                        i_variable := v;
                        i_unit := i_unit (fst ic) |}, snd ic)) (rows t) |}.

Definition set_unit (u : string) (t : DataFrame) : DataFrame :=
  {| col_kind := col_kind t;
     indexed := indexed t;
     columns := columns t;
     rows := map (fun ic =>
                    ({| i_model := i_model (fst ic);
                        i_scenario := i_scenario (fst ic);
                        i_region := i_region (fst ic);
                        i_variable := i_variable (fst ic);
                        i_unit := u |}, snd ic)) (rows t) |}.

(** ** Exceptions *)

(** The text of an exception, with the values that its format string echoes. *)
Inductive message :=
  (** "Having more than one `variable_leaders` is not yet implemented" *)
| MoreThanOneLeader
  (** "There is no data of the appropriate type in the database. There may be
      a typo in the SSP option." *)
| NoDataOfAppropriateType
  (** "No data for `variable_leaders` ({}) in database" *)
| NoDataForLeaders (variable_leaders : list string)
  (** "No data for `variable_follower` ({}) in database" *)
| NoDataForFollower (variable_follower : string)
  (** "`in_iamdf` time column must be the same as the time column used to
      generate this filler function (`{}`)" *)
| TimeColMismatch (use_db_time_col : TimeCol)
  (** "There is no data for {} so it cannot be infilled" *)
| NoDataToInfill (variable_leaders : list string)
  (** "There are multiple units for the lead variable." *)
| MultipleUnitsForLead
  (** "Units of lead variable is meant to be `{}`, found `{}`" *)
| UnitsMismatch (leader_units var_units : string)
  (** "Not all required timepoints are present in the database we crunched,
      we crunched `{}` but you passed in {}" *)
| MissingTimepoints (crunched passed : list Z)
  (** "Invalid quantile ({}), it must be in [0, 1]" *)
| InvalidQuantile (quantile : Q)
  (** "Invalid nwindows ({}), it must be an integer" *)
| InvalidNwindows (nwindows : Q)
  (** "decay_length_factor must not be zero" *)
| DecayLengthFactorZero.

Inductive exn :=
| NotImplementedError (m : message)
| ValueError (m : message)
| AssertionError (m : message)
| KeyError (time : Z)
| IndexError
| AttributeError.

(** ** The store of Python objects and the monad of the filler *)

Inductive obj :=
| OFrame (df : IamDataFrame)
| OTable (t : DataFrame).

Abbreviation loc := positive.
Abbreviation heap := (gmap positive obj).

(** A computation transforms the store and returns a value or raises; the
    store changes made before an exception stay. *)
Definition M (A : Type) : Type := heap -> heap * (exn + A).

Definition ret {A} (a : A) : M A := fun h => (h, inr a).

Definition raise {A} (e : exn) : M A := fun h => (h, inl e).

Definition bind {A B} (m : M A) (k : A -> M B) : M B :=
  fun h =>
    match m h with
    | (h', inl e) => (h', inl e)
    | (h', inr a) => k a h'
    end.

Declare Scope py_scope.
Delimit Scope py_scope with py.
Notation "x <- m ;; k" := (bind m (fun x => k))
  (at level 100, m at next level, right associativity) : py_scope.
Notation "m ;; k" := (bind m (fun _ => k))
  (at level 100, right associativity) : py_scope.

(** Constructing an object puts it at a location not yet in use. *)
Definition new (o : obj) : M loc :=
  fun h => let l := fresh (dom h) in (<[l := o]> h, inr l).

Definition get_frame (l : loc) : M IamDataFrame :=
  fun h =>
    match h !! l with
    | Some (OFrame df) => (h, inr df)
    | _ => (h, inl AttributeError)
    end.

Definition get_table (l : loc) : M DataFrame :=
  fun h =>
    match h !! l with
    | Some (OTable t) => (h, inr t)
    | _ => (h, inl AttributeError)
    end.

(** In-place update of the table at [l]. *)
Definition set_table (l : loc) (t : DataFrame) : M unit :=
  fun h => (<[l := OTable t]> h, inr tt).

Fixpoint for_each {A} (l : list A) (body : A -> M unit) : M unit :=
  match l with
  | [] => ret tt
  | x :: t => bind (body x) (fun _ => for_each t body)
  end.

(** ** silicone/utils.py *)

(** Modelled from the spec: [_get_unit_of_variable] of silicone/utils.py is
    missing from the sources; section 6 gives it as "retrieval of the unit(s)
    associated with a variable", and its callers take [len], [.size] and
    [[0]] of the result: the distinct units of the rows of the variables. *)
Definition _get_unit_of_variable (df : IamDataFrame) (variable : list string)
  : list string :=
  unique (map r_unit (data (filter_variable variable df))).

(** The identity of a series in the reference database. *)
Record Series := {
  s_model : string;
  s_scenario : string;
  s_region : string }.

#[global] Instance Series_eq_dec : EqDecision Series.
Proof. solve_decision. Defined.

Definition series_of (r : Row) : Series :=
  {| s_model := r_model r; s_scenario := r_scenario r;
     s_region := r_region r |}.

(** Modelled from the spec: [_make_wide_db] of silicone/utils.py is missing
    from the sources; section 4.3 has it "reshape the filtered database into
    one row per (model, scenario, region) and one column per time step (wide
    form)", each cell holding the value of every variable. *)
Record WideDb := {
  wide_index : list Series;
  wide_times : list Z;
  wide_data : list Row }.

Definition _make_wide_db (use_db : IamDataFrame) : WideDb :=
  {| wide_index := unique (map series_of (data use_db));
     wide_times := sorted_unique Z.compare (map r_time (data use_db));
     wide_data := data use_db |}.

(** The cell of the wide form: the value of [variable] for series [s] at
    [time] ([None] is NaN). *)
Definition cell (w : WideDb) (s : Series) (time : Z) (variable : string)
  : option Q :=
  option_map r_value
    (find (fun r => bool_decide (series_of r = s) && Z.eqb (r_time r) time
                    && String.eqb (r_variable r) variable) (wide_data w)).

(** Section 4.3: "extract paired (leader, follower) values across all rows,
    drop rows where either is NaN". *)
Definition paired_values (leader follower : string) (w : WideDb) (time : Z)
  : list (Q * Q) :=
  flat_map (fun s =>
              match cell w s time leader, cell w s time follower with
              | Some x, Some y => [(x, y)]
              | _, _ => []
              end) (wide_index w).

(** An interpolator is the list of its control points, by increasing
    position. *)
Abbreviation Interpolator := (list (Q * Q)).

(** Linear interpolation from the control point [(x0, y0)] on, for [x] to the
    right of [x0]: past the last control point the value stays flat. *)
Fixpoint interp_from (x0 y0 : Q) (rest : Interpolator) (x : Q) : Q :=
  match rest with
  | [] => y0
  | (x1, y1) :: rest' =>
      if Qle_bool x x1 then (y0 + (x - x0) * ((y1 - y0) / (x1 - x0)))%Q
      else interp_from x1 y1 rest' x
  end.

(** Modelled from the spec: the interpolator objects are built in
    silicone/utils.py, which is missing from the sources; section 3 gives
    "piecewise-linear interpolation between adjacent window centers" with
    "for input below min(center) or above max(center), output equals the
    value at the nearest boundary center", and the class docstring "Returns
    the follower values at the extreme leader values for leader values more
    extreme than that found in the input data". *)
Definition interp (curve : Interpolator) (x : Q) : Q :=
  match curve with
  | [] => 0%Q
  | (x0, y0) :: rest => if Qle_bool x x0 then y0 else interp_from x0 y0 rest x
  end.

Definition Qsum (l : list Q) : Q := fold_right Qplus 0%Q l.

Definition mean (l : list Q) : Q :=
  (Qsum l / inject_Z (Z.of_nat (length l)))%Q.

(** The class docstring: "Uses mean values in the case of repeated leader
    values": one control point per distinct leader value, at the mean of the
    follower values recorded for it. *)
Definition control_points (pairs : list (Q * Q)) : Interpolator :=
  map (fun x =>
         (x, mean (map snd (List.filter (fun p => Qeq_bool (fst p) x) pairs))))
      (sorted_unique Qcompare (map fst pairs)).

(** Modelled from the spec: [make_interpolator] of silicone/utils.py is
    missing from the sources; from the class docstring ("makes a linear
    interpolator to return values from that set of scenarios") and section
    4.3 ("For each time step column independently ... Collect the
    per-time-step interpolators"): a dictionary from each time step that has
    paired values to its interpolator, in the order of the time steps. *)
Definition make_interpolator (variable_follower : string)
    (variable_leaders : list string) (use_db : WideDb)
    (use_db_time_col : TimeCol) : list (Z * Interpolator) :=
  match variable_leaders with
  | [leader] =>
      flat_map (fun time =>
                  match paired_values leader variable_follower use_db time with
                  | [] => []
                  | pairs => [(time, control_points pairs)]
                  end) (wide_times use_db)
  | _ => []
  end.

(** [d.keys()] and [d[k]] of a dictionary kept as an association list. *)
Definition keys {V} (d : list (Z * V)) : list Z := map fst d.

Fixpoint getitem {V} (d : list (Z * V)) (k : Z) : option V :=
  match d with
  | [] => None
  | (k', v) :: d' => if Z.eqb k' k then Some v else getitem d' k
  end.

(** ** silicone/database_crunchers/ssp_specific_relation.py *)

Module DatabaseCruncherSSPSpecificRelation.

(** The cruncher object: [self._db] refers to the reference database. *)
Record Cruncher := { _db : loc }.

(** The variables that the closure [filler] captures from the call of
    [derive_relationship] that made it. *)
Record Relationship := {
  variable_follower : string;
  variable_leaders : list string;
  leader_units : string;
  follower_units : list string;
  use_db_time_col : TimeCol;
  interpolators : list (Z * Interpolator) }.

(** [def filler(in_iamdf)], lines 90-148. *)
Definition filler (rel : Relationship) (in_iamdf : loc) : M loc :=
  (df <- get_frame in_iamdf ;;
   if negb (TimeCol_eqb (use_db_time_col rel) (time_col df)) then
     raise (ValueError (TimeColMismatch (use_db_time_col rel)))
   else
     match _get_unit_of_variable df (variable_leaders rel) with
     | [] => raise (ValueError (NoDataToInfill (variable_leaders rel)))
     | var_units :: _ =>
         lead_var <- new (OFrame (filter_variable (variable_leaders rel) df)) ;;
         lead <- get_frame lead_var ;;
         if negb (Nat.eqb (nunique (map r_unit (data lead))) 1) then
           raise (AssertionError MultipleUnitsForLead)
         else if negb (String.eqb var_units (leader_units rel)) then
           raise (ValueError (UnitsMismatch (leader_units rel) var_units))
         else
           df <- get_frame in_iamdf ;;
           (** [set(...)]: the distinct time steps of the whole input; the
               order in which the loop below visits them is immaterial. *)
           let times_needed :=
             sorted_unique Z.compare (map r_time (data df)) in
           if existsb
                (fun x => negb (mem_time x (keys (interpolators rel))))
                times_needed
           then
             wide <- new (OTable (timeseries df)) ;;
             w <- get_table wide ;;
             raise (ValueError
                      (MissingTimepoints (keys (interpolators rel))
                         (columns w)))
           else
             lead <- get_frame lead_var ;;
             output_ts <- new (OTable (timeseries lead)) ;;
             for_each times_needed
               (fun time =>
                  match getitem (interpolators rel) time with
                  | None => raise (KeyError time)
                  | Some f =>
                      t <- get_table output_ts ;;
                      if mem_time time (columns t) then
                        set_table output_ts (assign_column time (interp f) t)
                      else raise (KeyError time)
                  end) ;;
             t <- get_table output_ts ;;
             set_table output_ts (reset_index t) ;;
             t <- get_table output_ts ;;
             set_table output_ts (set_variable (variable_follower rel) t) ;;
             match follower_units rel with
             | [] => raise IndexError
             | follower_unit :: _ =>
                 t <- get_table output_ts ;;
                 set_table output_ts (set_unit follower_unit t) ;;
                 t <- get_table output_ts ;;
                 new (OFrame (IamDataFrame_of t))
             end
     end)%py.

(** [def derive_relationship(self, variable_follower, variable_leaders,
    required_scenario="*")], lines 21-150; the result is the closure. *)
Definition derive_relationship (self : Cruncher) (variable_follower : string)
    (variable_leaders : list string) (required_scenario : string)
  : M Relationship :=
  (if negb (Nat.eqb (length variable_leaders) 1) then
     raise (NotImplementedError MoreThanOneLeader)
   else
     db <- get_frame (_db self) ;;
     use_db <- new (OFrame (filter_scenario_variable required_scenario
                              [nth 0 variable_leaders ""%string;
                               variable_follower] db)) ;;
     use <- get_frame use_db ;;
     match data use with
     | [] => raise (ValueError NoDataOfAppropriateType)
     | _ :: _ =>
         let leader_units := _get_unit_of_variable use variable_leaders in
         let follower_units :=
           _get_unit_of_variable use [variable_follower] in
         match leader_units with
         | [] => raise (ValueError (NoDataForLeaders variable_leaders))
         | leader_unit :: _ =>
             match follower_units with
             | [] => raise (ValueError (NoDataForFollower variable_follower))
             | _ :: _ =>
                 let use_db_time_col := time_col use in
                 let wide := _make_wide_db use in
                 ret {| variable_follower := variable_follower;
                        variable_leaders := variable_leaders;
                        leader_units := leader_unit;
                        follower_units := follower_units;
                        use_db_time_col := use_db_time_col;
                        interpolators :=
                          make_interpolator variable_follower
                            variable_leaders wide use_db_time_col |}
             end
         end
     end)%py.

(** *** What the two functions compute, without the store

    [filled] and [derived] give the outcome of [filler] and
    [derive_relationship] as functions of the frames they read;
    [filler_run] and [derive_relationship_run] below prove that the code
    computes them. *)

(** The loop [for time in times_needed: output_ts[time] = ...]. *)
Fixpoint interpolate_columns (d : list (Z * Interpolator)) (times : list Z)
    (t : DataFrame) : exn + DataFrame :=
  match times with
  | [] => inr t
  | time :: times' =>
      match getitem d time with
      | None => inl (KeyError time)
      | Some f =>
          if mem_time time (columns t) then
            interpolate_columns d times' (assign_column time (interp f) t)
          else inl (KeyError time)
      end
  end.

Definition filled (rel : Relationship) (df : IamDataFrame)
  : exn + IamDataFrame :=
  if negb (TimeCol_eqb (use_db_time_col rel) (time_col df)) then
    inl (ValueError (TimeColMismatch (use_db_time_col rel)))
  else
    match _get_unit_of_variable df (variable_leaders rel) with
    | [] => inl (ValueError (NoDataToInfill (variable_leaders rel)))
    | var_units :: _ =>
        let lead := filter_variable (variable_leaders rel) df in
        if negb (Nat.eqb (nunique (map r_unit (data lead))) 1) then
          inl (AssertionError MultipleUnitsForLead)
        else if negb (String.eqb var_units (leader_units rel)) then
          inl (ValueError (UnitsMismatch (leader_units rel) var_units))
        else
          let times_needed := sorted_unique Z.compare (map r_time (data df)) in
          if existsb (fun x => negb (mem_time x (keys (interpolators rel))))
               times_needed
          then
            inl (ValueError (MissingTimepoints (keys (interpolators rel))
                               (columns (timeseries df))))
          else
            match interpolate_columns (interpolators rel) times_needed
                    (timeseries lead) with
            | inl e => inl e
            | inr t =>
                match follower_units rel with
                | [] => inl IndexError
                | follower_unit :: _ =>
                    inr (IamDataFrame_of
                           (set_unit follower_unit
                              (set_variable (variable_follower rel)
                                 (reset_index t))))
                end
            end
    end.

Definition derived (db : IamDataFrame) (variable_follower : string)
    (variable_leaders : list string) (required_scenario : string)
  : exn + Relationship :=
  if negb (Nat.eqb (length variable_leaders) 1) then
    inl (NotImplementedError MoreThanOneLeader)
  else
    let use :=
      filter_scenario_variable required_scenario
        [nth 0 variable_leaders ""%string; variable_follower] db in
    match data use with
    | [] => inl (ValueError NoDataOfAppropriateType)
    | _ :: _ =>
        match _get_unit_of_variable use variable_leaders with
        | [] => inl (ValueError (NoDataForLeaders variable_leaders))
        | leader_unit :: _ =>
            match _get_unit_of_variable use [variable_follower] with
            | [] => inl (ValueError (NoDataForFollower variable_follower))
            | follower_unit :: more =>
                inr {| variable_follower := variable_follower;
                       variable_leaders := variable_leaders;
                       leader_units := leader_unit;
                       follower_units := follower_unit :: more;
                       use_db_time_col := time_col use;
                       interpolators :=
                         make_interpolator variable_follower variable_leaders
                           (_make_wide_db use) (time_col use) |}
            end
        end
    end.

End DatabaseCruncherSSPSpecificRelation.

(** ** Notions used to state the properties *)

(** The control points of an interpolator stand at strictly increasing
    positions (section 3: "monotonic in window_center", "no duplicate
    centers"). *)
Definition increasing_centers (curve : Interpolator) : Prop :=
  StronglySorted (fun p q => (fst p < fst q)%Q) curve.

(** What the loop of the filler makes of one cell of the wide table. *)
Definition interpolate_cell (d : list (Z * Interpolator)) (times : list Z)
    (c : Z * Q) : Z * Q :=
  if mem_time (fst c) times then
    (fst c, match getitem d (fst c) with
            | Some f => interp f (snd c)
            | None => snd c
            end)
  else c.

(** The row that the filler returns for a row of the leader. *)
Definition fill_row (rel : DatabaseCruncherSSPSpecificRelation.Relationship)
    (follower_unit : string) (r : Row) : Row :=
  {| r_model := r_model r; r_scenario := r_scenario r; r_region := r_region r;
     r_variable := DatabaseCruncherSSPSpecificRelation.variable_follower rel;
     r_unit := follower_unit;
     r_time := r_time r;
     r_value :=
       match getitem (DatabaseCruncherSSPSpecificRelation.interpolators rel)
               (r_time r) with
       | Some f => interp f (r_value r)
       | None => r_value r
       end |}.

(** The (model, scenario, region) index of a row and its time step. *)
Definition series_time (r : Row) : Series * Z := (series_of r, r_time r).


(** ** The rolling-window quantile learner of the specification

    [silicone/database_crunchers/quantile_rolling_windows.py] and
    [silicone/stats.py] are not among the sources; the test
    [test_cruncher_quantile_rolling_windows.py] calls them. *)

Module QuantileRollingWindows.

(** Section 3: "Sample: a (leader_value, follower_value, weight) tuple"; the
    weight is the one the window at hand gives the sample. *)
Record Sample := {
  leader_value : Q;
  follower_value : Q;
  weight : Q }.

(** Section 9: "diagnostics for the zero-weight case should be surfaced via a
    structured result type (value + flag)". *)
Inductive diagnostic := ZeroTotalWeight.

(** Section 4.2: "sorting samples by follower value". *)
Fixpoint insert_by_follower (s : Sample) (l : list Sample) : list Sample :=
  match l with
  | [] => [s]
  | h :: t =>
      if Qle_bool (follower_value s) (follower_value h) then s :: l
      else h :: insert_by_follower s t
  end.

Definition sort_by_follower (l : list Sample) : list Sample :=
  fold_right insert_by_follower [] l.

(** Section 4.2: "forming a weighted cumulative distribution normalized to
    [0,1]"; section 8: "computed via weighted midpoint rule": each sorted
    sample stands at the cumulative weight before it plus half its own. *)
Fixpoint cumulative_midpoints (total before : Q) (l : list Sample)
  : Interpolator :=
  match l with
  | [] => []
  | s :: t =>
      (((before + weight s / 2) / total)%Q, follower_value s)
        :: cumulative_midpoints total (before + weight s)%Q t
  end.

(** Modelled from the spec: the weighted quantile of silicone/stats.py is
    missing from the sources; section 4.2: "Samples with zero or NaN weight
    are excluded", "If all samples in a window have zero total weight ...
    the engine returns 0 and emits an informational diagnostic", else the
    follower value at the target quantile "using linear interpolation between
    adjacent sorted points"; outside the first and last midpoint the value is
    that of the first and last sample (the test's "below the lower quantile
    limit" and "too high" cases). *)
Definition weighted_quantile (samples : list Sample) (quantile : Q)
  : Q * list diagnostic :=
  let kept := List.filter (fun s => negb (Qeq_bool (weight s) 0)) samples in
  let total := Qsum (map weight kept) in
  if Qeq_bool total 0 then (0%Q, [ZeroTotalWeight])
  else (interp (cumulative_midpoints total 0 (sort_by_follower kept)) quantile,
        []).

(** Section 3: "Quantile Curve: for a single time step, an ordered sequence of
    (window_center, quantile_value) pairs"; a window is given by its center
    and the samples as it weights them. *)
Definition quantile_curve (windows : list (Q * list Sample)) (quantile : Q)
  : Interpolator :=
  map (fun w => (fst w, fst (weighted_quantile (snd w) quantile))) windows.

(** Python's [int(x)]: truncation towards zero. *)
Definition int (x : Q) : Z := Z.quot (Qnum x) (Z.pos (Qden x)).

Section Builder.

(** The steps of section 4.3 that follow the validation of the arguments
    (filtering the reference database, the Window Planner and the Weighted
    Quantile Engine); they return the filler. *)
Context {Filler : Type}.
Context (fit : loc -> string -> string -> Q -> Z -> Q -> bool -> M Filler).

(** Modelled from the spec: [QuantileRollingWindows.derive_relationship] is
    missing from the sources; section 4.3: "Preconditions / validation (fail
    fast, before any computation): Exactly one leader variable, else error.
    quantile in [0,1], else error naming the invalid value.  nwindows is an
    integer (may be supplied as float with no fractional part), else error
    naming the invalid value.  decay_length_factor <> 0, else error." *)
Definition derive_relationship (db : loc) (variable_follower : string)
    (variable_leaders : list string) (quantile nwindows decay_length_factor : Q)
    (use_ratio : bool) : M Filler :=
  if negb (Nat.eqb (length variable_leaders) 1) then
    raise (NotImplementedError MoreThanOneLeader)
  else if negb (Qle_bool 0 quantile && Qle_bool quantile 1) then
    raise (ValueError (InvalidQuantile quantile))
  else if negb (Qeq_bool (inject_Z (int nwindows)) nwindows) then
    raise (ValueError (InvalidNwindows nwindows))
  else if Qeq_bool decay_length_factor 0 then
    raise (ValueError DecayLengthFactorZero)
  else
    fit db variable_follower (nth 0 variable_leaders ""%string) quantile
      (int nwindows) decay_length_factor use_ratio.

End Builder.

End QuantileRollingWindows.

(** ** The data of the tests *)

Definition series_rows (m s v u : string) (cells : list (Z * Q)) : list Row :=
  map (fun c => {| r_model := m; r_scenario := s; r_region := "World";
                   r_variable := v; r_unit := u;
                   r_time := fst c; r_value := snd c |}) cells.

Definition years_2010_2070 (a b c d : Q) : list (Z * Q) :=
  [(2010%Z, a); (2030%Z, b); (2050%Z, c); (2070%Z, d)].

(** [tdb] of the test class. *)
Definition tdb : IamDataFrame :=
  {| time_col := Year;
     data :=
       series_rows "model_a" "scen_a" "Emissions|CO2" "Gt C/yr"
         (years_2010_2070 1 2 3 4)
       ++ series_rows "model_a" "scen_b" "Emissions|CO2" "Gt C/yr"
            (years_2010_2070 1 2 2 1)
       ++ series_rows "model_b" "scen_a" "Emissions|CO2" "Gt C/yr"
            (years_2010_2070 0.5 3.5 3.5 0.5)
       ++ series_rows "model_b" "scen_b" "Emissions|CO2" "Gt C/yr"
            (years_2010_2070 3.5 0.5 0.5 3.5)
       ++ series_rows "model_a" "scen_a" "Emissions|CH4" "Mt CH4/yr"
            (years_2010_2070 100 200 300 400)
       ++ series_rows "model_a" "scen_b" "Emissions|CH4" "Mt CH4/yr"
            (years_2010_2070 100 200 250 300)
       ++ series_rows "model_b" "scen_a" "Emissions|CH4" "Mt CH4/yr"
            (years_2010_2070 220 260 250 230)
       ++ series_rows "model_b" "scen_b" "Emissions|CH4" "Mt CH4/yr"
            (years_2010_2070 50 200 500 800)
       ++ series_rows "model_a" "scen_a" "Emissions|HFC|C5F12" "Mt CH4/yr"
            (years_2010_2070 3.14 4 5 6)
       ++ series_rows "model_a" "scen_a" "Emissions|HFC|C2F6" "kt C2F6/yr"
            (years_2010_2070 1.2 1.5 1 0.5) |}.

(** [tdownscale_df] of the test class. *)
Definition tdownscale_df : IamDataFrame :=
  {| time_col := Year;
     data :=
       series_rows "model_c" "scen_a" "Emissions|CO2" "Gt C/yr"
         (years_2010_2070 1 2 3 4)
       ++ series_rows "model_c" "scen_b" "Emissions|CO2" "Gt C/yr"
            (years_2010_2070 0.5 0.5 0.5 0.5)
       ++ series_rows "model_c" "scen_c" "Emissions|CO2" "Gt C/yr"
            (years_2010_2070 5 5 5 5)
       ++ series_rows "model_a" "scen_c" "Emissions|CO2" "Gt C/yr"
            (years_2010_2070 1.5 2.5 2.8 1.8) |}.

(** [test_db.filter(year=2030, keep=False)]. *)
Definition without_year (y : Z) (df : IamDataFrame) : IamDataFrame :=
  {| time_col := time_col df;
     data := List.filter (fun r => negb (Z.eqb (r_time r) y)) (data df) |}.

(** The year 2010 of [simple_df] as the two windows of the worked example
    weight it: the sample at the window's center 5/6, the other 1/6. *)
Definition simple_df_2010_windows : list (Q * list QuantileRollingWindows.Sample) :=
  [(0%Q, [QuantileRollingWindows.Build_Sample 0 0 (5 # 6);
          QuantileRollingWindows.Build_Sample 1 1 (1 # 6)]);
   (1%Q, [QuantileRollingWindows.Build_Sample 0 0 (1 # 6);
          QuantileRollingWindows.Build_Sample 1 1 (5 # 6)])].

(** [small_db] of the test class. *)
Definition small_db : IamDataFrame :=
  {| time_col := Year;
     data :=
       series_rows "model_b" "scen_a" "Emissions|CO2" "Gt C/yr"
         [(2010%Z, 1.2%Q)]
       ++ series_rows "model_a" "scen_b" "Emissions|CO2" "Gt C/yr"
            [(2010%Z, 2.3%Q)] |}.



(** [test_downscale_df["unit"] = wrong_unit]. *)
Definition with_unit (u : string) (df : IamDataFrame) : IamDataFrame :=
  {| time_col := time_col df;
     data := map (fun r => {| r_model := r_model r;
                              r_scenario := r_scenario r;
                              r_region := r_region r;
                              r_variable := r_variable r;
                              r_unit := u;
                              r_time := r_time r;
                              r_value := r_value r |}) (data df) |}.

(** The closure that [derive_relationship] returns for a database that has
    both variables under the units given. *)
Definition relationship_of (db : IamDataFrame)
    (follower leader leader_unit follower_unit : string)
  : DatabaseCruncherSSPSpecificRelation.Relationship :=
  DatabaseCruncherSSPSpecificRelation.Build_Relationship
    follower [leader] leader_unit [follower_unit] (time_col db)
    (make_interpolator follower [leader]
       (_make_wide_db (filter_scenario_variable "*" [leader; follower] db))
       (time_col db)).

(** A store with the reference database at 1 and the data to fill at 2. *)
Definition store_of (db in_iamdf : IamDataFrame) : heap :=
  <[2%positive := OFrame in_iamdf]> {[1%positive := OFrame db]}.

(** The frame that a run left at the location it returned. *)
Definition returned_frame (run : heap * (exn + loc)) : IamDataFrame :=
  match run.2 with
  | inr l =>
      match run.1 !! l with
      | Some (OFrame out) => out
      | _ => {| time_col := Year; data := [] |}
      end
  | inl _ => {| time_col := Year; data := [] |}
  end.


(** Data to fill that has the leader CO2 in 2010 only and a row of CH4 in
    2030. *)
Definition leader_2010_other_2030 : IamDataFrame :=
  {| time_col := Year;
     data :=
       data small_db
       ++ series_rows "model_b" "scen_a" "Emissions|CH4" "Mt CH4/yr"
            [(2030%Z, 260%Q)] |}.

(** * Proofs *)

Import DatabaseCruncherSSPSpecificRelation.

(** ** The store *)

Lemma fresh_unused (h : heap) : h !! fresh (dom h) = None.
Proof. apply not_elem_of_dom, is_fresh. Qed.

(** [new] returns the first unused location and binds the object there. *)
Lemma new_run (o : obj) (h : heap) :
  new o h = (<[fresh (dom h) := o]> h, inr (fresh (dom h))).
Proof. reflexivity. Qed.

(** Binding a location that [h] does not use keeps every object of [h]. *)
Lemma insert_unused_subseteq (h h' : heap) (l : loc) (o : obj) :
  h ⊆ h' -> h !! l = None -> h ⊆ <[l := o]> h'.
Proof.
  intros Hsub Hl. apply map_subseteq_spec. intros i x Hi.
  rewrite lookup_insert_ne by congruence.
  eapply lookup_weaken; eauto.
Qed.

Lemma subseteq_unused (h h' : heap) (l : loc) :
  h ⊆ h' -> h' !! l = None -> h !! l = None.
Proof.
  intros Hsub Hl. destruct (h !! l) eqn:E; [|done].
  eapply lookup_weaken in E; eauto. congruence.
Qed.

(** One step of a sequence. *)
Lemma bind_run {A B} (m : M A) (k : A -> M B) (h : heap) :
  bind m k h = match m h with
               | (h', inl e) => (h', inl e)
               | (h', inr a) => k a h'
               end.
Proof. reflexivity. Qed.

Lemma get_frame_run (l : loc) (df : IamDataFrame) (h : heap) :
  h !! l = Some (OFrame df) -> get_frame l h = (h, inr df).
Proof. intros Hl. unfold get_frame. by rewrite Hl. Qed.

Lemma get_table_run (l : loc) (t : DataFrame) (h : heap) :
  h !! l = Some (OTable t) -> get_table l h = (h, inr t).
Proof. intros Hl. unfold get_table. by rewrite Hl. Qed.

(** The body of the loop of the filler, run on a store that has the table
    [t] at [output_ts]. *)
Lemma interpolate_step_run (d : list (Z * Interpolator)) (output_ts : loc)
    (time : Z) (t : DataFrame) (h : heap) :
  h !! output_ts = Some (OTable t) ->
  match getitem d time with
  | None => raise (KeyError time)
  | Some f =>
      bind (get_table output_ts)
        (fun t =>
           if mem_time time (columns t) then
             set_table output_ts (assign_column time (interp f) t)
           else raise (KeyError time))
  end h
  = match getitem d time with
    | None => (h, inl (KeyError time))
    | Some f =>
        if mem_time time (columns t) then
          (<[output_ts := OTable (assign_column time (interp f) t)]> h, inr tt)
        else (h, inl (KeyError time))
    end.
Proof.
  intros Hl. destruct (getitem d time) as [f|]; [|done].
  rewrite bind_run, (get_table_run _ t) by done.
  by destruct (mem_time time (columns t)).
Qed.

(** The loop of the filler only ever rewrites the table at [output_ts]: it
    ends with [interpolate_columns] of the table there, or raises what
    [interpolate_columns] raises. *)
Lemma for_each_interpolate (d : list (Z * Interpolator)) (output_ts : loc)
    (body : Z -> M unit) (times : list Z) :
  (forall time t h,
      h !! output_ts = Some (OTable t) ->
      body time h
      = match getitem d time with
        | None => (h, inl (KeyError time))
        | Some f =>
            if mem_time time (columns t) then
              (<[output_ts := OTable (assign_column time (interp f) t)]> h,
               inr tt)
            else (h, inl (KeyError time))
        end) ->
  forall (t : DataFrame) (h : heap),
    h !! output_ts = Some (OTable t) ->
    match interpolate_columns d times t with
    | inl e => (for_each times body h).2 = inl e
               /\ exists t', (for_each times body h).1 = <[output_ts := OTable t']> h
    | inr t' => for_each times body h = (<[output_ts := OTable t']> h, inr tt)
    end.
Proof.
  intros Hbody.
  induction times as [|time times IH]; intros t h Hl.
  - cbn. unfold ret. by rewrite insert_id.
  - cbn [for_each interpolate_columns]. rewrite bind_run, (Hbody time t h Hl).
    destruct (getitem d time) as [f|] eqn:Hf.
    + destruct (mem_time time (columns t)) eqn:Hm.
      * specialize (IH (assign_column time (interp f) t)
                       (<[output_ts := OTable (assign_column time (interp f) t)]> h)).
        rewrite lookup_insert_eq in IH. specialize (IH eq_refl).
        destruct (interpolate_columns d times _) as [e|t'].
        -- destruct IH as [-> [t' ->]]. split; [done|]. exists t'.
           by rewrite insert_insert_eq.
        -- rewrite IH. by rewrite insert_insert_eq.
      * simpl. split; [done|]. exists t. by rewrite insert_id.
    + simpl. split; [done|]. exists t. by rewrite insert_id.
Qed.

(** Called on something that is no frame, the filler fails at its first
    attribute access and touches nothing. *)
Lemma filler_no_frame (rel : Relationship) (in_iamdf : loc) (h : heap) :
  (forall df, h !! in_iamdf <> Some (OFrame df)) ->
  filler rel in_iamdf h = (h, inl AttributeError).
Proof.
  intros Hl. unfold filler. rewrite bind_run. unfold get_frame.
  destruct (h !! in_iamdf) as [[df|t]|] eqn:E; try done.
  by destruct (Hl df).
Qed.

Lemma set_table_run (l : loc) (t : DataFrame) (h : heap) :
  set_table l t h = (<[l := OTable t]> h, inr tt).
Proof. reflexivity. Qed.

(** The filler refines [filled]: it keeps every object the store had, and
    it raises what [filled] raises or returns a location, unused before,
    that now holds the frame [filled] gives. *)
Lemma filler_run (rel : Relationship) (in_iamdf : loc) (df : IamDataFrame)
    (h : heap) :
  h !! in_iamdf = Some (OFrame df) ->
  h ⊆ (filler rel in_iamdf h).1
  /\ match filled rel df with
     | inl e => (filler rel in_iamdf h).2 = inl e
     | inr out =>
         exists l', (filler rel in_iamdf h).2 = inr l'
                    /\ h !! l' = None
                    /\ (filler rel in_iamdf h).1 !! l' = Some (OFrame out)
     end.
Proof.
  intros Hl. destruct (filler rel in_iamdf h) as [hf r] eqn:Hrun. cbn [fst snd].
  unfold filler in Hrun. unfold filled.
  rewrite bind_run, (get_frame_run _ df) in Hrun by done.
  destruct (negb (TimeCol_eqb (use_db_time_col rel) (time_col df))).
  { by injection Hrun as <- <-. }
  destruct (_get_unit_of_variable df (variable_leaders rel)) as [|var_units ?].
  { by injection Hrun as <- <-. }
  rewrite bind_run, new_run in Hrun.
  set (lead_var := fresh (dom h)) in *.
  assert (Hlead : h !! lead_var = None) by apply fresh_unused.
  set (lead := filter_variable (variable_leaders rel) df) in *.
  set (h1 := <[lead_var := OFrame lead]> h) in *.
  assert (Hsub1 : h ⊆ h1) by (by apply insert_subseteq).
  assert (Hl1 : h1 !! in_iamdf = Some (OFrame df))
    by (eapply lookup_weaken; eauto).
  assert (Hlead1 : h1 !! lead_var = Some (OFrame lead))
    by apply lookup_insert_eq.
  rewrite bind_run, (get_frame_run _ lead) in Hrun by done.
  destruct (negb (Nat.eqb (nunique (map r_unit (data lead))) 1)).
  { by injection Hrun as <- <-. }
  destruct (negb (String.eqb var_units (leader_units rel))).
  { by injection Hrun as <- <-. }
  rewrite bind_run, (get_frame_run _ df) in Hrun by done.
  destruct (existsb _ _).
  { rewrite bind_run, new_run, bind_run in Hrun.
    rewrite (get_table_run _ (timeseries df)) in Hrun by apply lookup_insert_eq.
    injection Hrun as <- <-.
    split; [|done]. apply insert_unused_subseteq; [done|].
    eapply subseteq_unused; [exact Hsub1|apply fresh_unused]. }
  rewrite bind_run, (get_frame_run _ lead) in Hrun by done.
  rewrite bind_run, new_run in Hrun.
  set (output_ts := fresh (dom h1)) in *.
  assert (Hout1 : h1 !! output_ts = None) by apply fresh_unused.
  assert (Hout : h !! output_ts = None) by (eapply subseteq_unused; eauto).
  set (h2 := <[output_ts := OTable (timeseries lead)]> h1) in *.
  assert (Hsub2 : forall t, h ⊆ <[output_ts := OTable t]> h1)
    by (intros t; by apply insert_unused_subseteq).
  rewrite bind_run in Hrun.
  pose proof (for_each_interpolate (interpolators rel) output_ts
                (fun time =>
                   match getitem (interpolators rel) time with
                   | None => raise (KeyError time)
                   | Some f =>
                       bind (get_table output_ts)
                         (fun t =>
                            if mem_time time (columns t) then
                              set_table output_ts
                                (assign_column time (interp f) t)
                            else raise (KeyError time))
                   end)
                (sorted_unique Z.compare (map r_time (data df)))
                (interpolate_step_run (interpolators rel) output_ts)
                (timeseries lead) h2 (lookup_insert_eq _ _ _)) as Hloop.
  destruct (interpolate_columns _ _ _) as [e|t'].
  { destruct Hloop as [He [t' Ht']].
    destruct (for_each _ _ h2) as [h3 [e'|[]]]; cbn in He, Ht'; [|done].
    injection He as ->. injection Hrun as <- <-. subst h3. unfold h2.
    by rewrite insert_insert_eq. }
  rewrite Hloop in Hrun. unfold h2 in Hrun. rewrite insert_insert_eq in Hrun.
  rewrite bind_run, (get_table_run _ t') in Hrun by apply lookup_insert_eq.
  rewrite bind_run, set_table_run, insert_insert_eq in Hrun.
  rewrite bind_run, (get_table_run _ (reset_index t')) in Hrun
    by apply lookup_insert_eq.
  rewrite bind_run, set_table_run, insert_insert_eq in Hrun.
  destruct (follower_units rel) as [|follower_unit ?].
  { by injection Hrun as <- <-. }
  rewrite bind_run, (get_table_run _ (set_variable (variable_follower rel)
                                        (reset_index t'))) in Hrun
    by apply lookup_insert_eq.
  rewrite bind_run, set_table_run, insert_insert_eq in Hrun.
  rewrite bind_run, (get_table_run _ (set_unit follower_unit
                                        (set_variable (variable_follower rel)
                                           (reset_index t')))) in Hrun
    by apply lookup_insert_eq.
  rewrite new_run in Hrun.
  injection Hrun as <- <-.
  match goal with
  | |- _ ⊆ <[fresh (dom ?m) := _]> _ /\ _ =>
      assert (Hres : h !! fresh (dom m) = None)
        by (eapply subseteq_unused; [apply Hsub2|apply fresh_unused])
  end.
  split.
  - apply insert_unused_subseteq; [apply Hsub2|exact Hres].
  - eexists. split; [reflexivity|]. split; [exact Hres|].
    apply lookup_insert_eq.
Qed.

(** The length check comes before anything is read. *)
Lemma derive_relationship_not_one (self : Cruncher) (follower : string)
    (leaders : list string) (scenario : string) (h : heap) :
  length leaders <> 1%nat ->
  derive_relationship self follower leaders scenario h
  = (h, inl (NotImplementedError MoreThanOneLeader)).
Proof.
  intros Hlen. unfold derive_relationship.
  destruct (Nat.eqb_spec (length leaders) 1); [done|reflexivity].
Qed.

(** [derive_relationship] refines [derived] and keeps every object the
    store had. *)
Lemma derive_relationship_run (self : Cruncher) (follower : string)
    (leaders : list string) (scenario : string) (db : IamDataFrame)
    (h : heap) :
  h !! _db self = Some (OFrame db) ->
  h ⊆ (derive_relationship self follower leaders scenario h).1
  /\ (derive_relationship self follower leaders scenario h).2
     = derived db follower leaders scenario.
Proof.
  intros Hl.
  destruct (derive_relationship self follower leaders scenario h) as [hf r]
    eqn:Hrun.
  cbn [fst snd]. unfold derive_relationship in Hrun. unfold derived.
  destruct (negb (Nat.eqb (length leaders) 1)).
  { by injection Hrun as <- <-. }
  rewrite bind_run, (get_frame_run _ db) in Hrun by done.
  rewrite bind_run, new_run in Hrun.
  set (use := filter_scenario_variable _ _ db) in *.
  rewrite bind_run, (get_frame_run _ use) in Hrun by apply lookup_insert_eq.
  assert (Hsub : h ⊆ <[fresh (dom h) := OFrame use]> h)
    by (apply insert_subseteq, fresh_unused).
  destruct (data use); [by injection Hrun as <- <-|].
  destruct (_get_unit_of_variable use leaders);
    [by injection Hrun as <- <-|].
  destruct (_get_unit_of_variable use [follower]);
    by injection Hrun as <- <-.
Qed.

(** ** [unique] *)

Section Unique.
Context {A : Type} `{EqDecision A}.

(** [unique] keeps exactly the elements of the list. *)
Lemma unique_In (x : A) (l : list A) : In x (unique l) <-> In x l.
Proof.
  induction l as [|a l IH]; [done|]. cbn.
  rewrite filter_In, IH.
  destruct (decide (x = a)) as [->|Hne].
  - split; auto.
  - rewrite bool_decide_eq_false_2 by done. cbn. split.
    + intros [->|[H _]]; auto.
    + intros [->|H]; [done|]. auto.
Qed.

(** A non-empty list of copies of [u] has [u] as its only distinct value. *)
Lemma unique_const (u : A) (l : list A) :
  l <> [] -> (forall x, In x l -> x = u) -> unique l = [u].
Proof.
  intros Hne Hall. destruct l as [|a l]; [done|]. clear Hne.
  assert (a = u) as -> by (apply Hall; by left).
  cbn. f_equal.
  assert (Hl : forall x, In x (unique l) -> x = u).
  { intros x Hx. apply Hall. right. by apply unique_In. }
  induction (unique l) as [|b t IH]; [done|]. cbn.
  rewrite (Hl b) by (by left).
  rewrite bool_decide_eq_true_2 by done. cbn. apply IH.
  intros x Hx. apply Hl. by right.
Qed.

Lemma filter_neq_length (a : A) (l : list A) :
  length (List.filter (fun y => negb (bool_decide (y = a))) l) = 0%nat ->
  forall x, In x l -> x = a.
Proof.
  induction l as [|b l IH]; [done|]. cbn.
  destruct (decide (b = a)) as [->|Hne].
  - rewrite bool_decide_eq_true_2 by done. cbn.
    intros Hlen x [<-|Hx]; auto.
  - rewrite bool_decide_eq_false_2 by done. cbn. done.
Qed.

(** [nunique l = 1] says that all elements of [l] are the same. *)
Lemma nunique_one (l : list A) :
  nunique l = 1%nat -> exists u, unique l = [u] /\ forall x, In x l -> x = u.
Proof.
  unfold nunique. destruct l as [|a l]; [done|]. cbn. intros Hlen.
  injection Hlen as Hlen. exists a.
  pose proof (filter_neq_length a (unique l) Hlen) as Hall.
  split.
  - destruct (List.filter _ _); [done|done].
  - intros x [<-|Hx]; [done|]. apply Hall. by apply unique_In.
Qed.

(** [unique] has no repetition. *)
Lemma unique_NoDup (l : list A) : List.NoDup (unique l).
Proof.
  induction l as [|a l IH]; cbn; constructor.
  - rewrite filter_In. intros [_ H].
    by rewrite bool_decide_eq_true_2 in H.
  - by apply List.NoDup_filter.
Qed.
End Unique.

(** ** Grouping the rows of a frame by series *)

Section Group.
Context {A K : Type} `{EqDecision K} (key : A -> K).

Lemma flat_map_filter_nil (ks : list K) :
  flat_map (fun k => List.filter (fun r : A => bool_decide (key r = k)) []) ks = [].
Proof. induction ks; [done|]. cbn. done. Qed.

Lemma flat_map_filter_other (r : A) (l : list A) (ks : list K) :
  ~ In (key r) ks ->
  flat_map (fun k => List.filter (fun r => bool_decide (key r = k)) (r :: l)) ks
  = flat_map (fun k => List.filter (fun r => bool_decide (key r = k)) l) ks.
Proof.
  induction ks as [|k ks IH]; intros Hnot; [done|]. cbn.
  rewrite bool_decide_eq_false_2 by (intros Heq; apply Hnot; by left).
  f_equal. apply IH. intros H. apply Hnot. by right.
Qed.

(** Listing, key by key, the elements that have that key rearranges the
    list. *)
Lemma group_Permutation (l : list A) :
  forall ks,
    List.NoDup ks -> (forall r, In r l -> In (key r) ks) ->
    Permutation
      (flat_map (fun k => List.filter (fun r => bool_decide (key r = k)) l) ks)
      l.
Proof.
  induction l as [|r l IH]; intros ks Hnd Hks.
  - by rewrite flat_map_filter_nil.
  - destruct (in_split (key r) ks) as [ks1 [ks2 ->]]; [apply Hks; by left|].
    pose proof (List.NoDup_remove _ _ _ Hnd) as [_ Hnot].
    rewrite flat_map_app. cbn [flat_map].
    rewrite !flat_map_filter_other
      by (intros H; apply Hnot, in_or_app; auto).
    cbn [List.filter]. rewrite bool_decide_eq_true_2 by done.
    cbn [app].
    apply Permutation_sym, Permutation_cons_app, Permutation_sym.
    specialize (IH (ks1 ++ key r :: ks2) Hnd).
    rewrite flat_map_app in IH. cbn [flat_map] in IH. apply IH.
    intros r' Hr'. apply Hks. by right.
Qed.
End Group.

(** The row that [filler] returns for a row of the leader. *)
(** ** Sorted distinct time steps *)

Lemma insert_unique_In (x y : Z) (l : list Z) :
  In y (insert_unique Z.compare x l) <-> y = x \/ In y l.
Proof.
  induction l as [|h t IH]; cbn.
  - intuition.
  - destruct (Z.compare_spec x h) as [->|Hlt|Hgt]; cbn.
    + intuition.
    + intuition.
    + rewrite IH. intuition.
Qed.

(** The sorted distinct time steps are the time steps of the list. *)
Lemma sorted_unique_In (y : Z) (l : list Z) :
  In y (sorted_unique Z.compare l) <-> In y l.
Proof.
  induction l as [|x l IH]; [done|]. cbn.
  rewrite insert_unique_In, IH. intuition.
Qed.

Lemma insert_unique_sorted (x : Z) (l : list Z) :
  StronglySorted Z.lt l -> StronglySorted Z.lt (insert_unique Z.compare x l).
Proof.
  induction l as [|h t IH]; intros Hs; cbn.
  - repeat constructor.
  - inversion Hs as [|? ? Hs' Hall]; subst.
    destruct (Z.compare_spec x h) as [->|Hlt|Hgt].
    + done.
    + constructor; [done|]. constructor; [done|].
      eapply List.Forall_impl; [|exact Hall]. cbn. lia.
    + constructor; [by apply IH|].
      rewrite List.Forall_forall in *. intros y Hy.
      apply insert_unique_In in Hy as [->|Hy]; [lia|by apply Hall].
Qed.

Lemma sorted_unique_sorted (l : list Z) :
  StronglySorted Z.lt (sorted_unique Z.compare l).
Proof.
  induction l; cbn; [constructor|by apply insert_unique_sorted].
Qed.

Lemma StronglySorted_lt_NoDup (l : list Z) :
  StronglySorted Z.lt l -> List.NoDup l.
Proof.
  induction 1 as [|x l Hs IH Hall]; constructor; [|done].
  intros Hin. rewrite List.Forall_forall in Hall. specialize (Hall _ Hin). lia.
Qed.

(** They are distinct. *)
Lemma sorted_unique_NoDup (l : list Z) :
  List.NoDup (sorted_unique Z.compare l).
Proof. apply StronglySorted_lt_NoDup, sorted_unique_sorted. Qed.

Lemma mem_time_In (t : Z) (l : list Z) : mem_time t l = true <-> In t l.
Proof.
  unfold mem_time. rewrite existsb_exists. split.
  - intros [x [Hx Heq]]. apply Z.eqb_eq in Heq. by subst.
  - intros H. exists t. split; [done|apply Z.eqb_refl].
Qed.

(** ** The wide table and back *)

Lemma row_of_index_of (r : Row) : row_of (index_of r) (r_time r, r_value r) = r.
Proof. by destruct r. Qed.

(** The cells of a series, read back as rows, are the rows of that series. *)
Lemma map_row_of_cells (i : Index) (l : list Row) :
  map (row_of i) (cells_of i l)
  = List.filter (fun r => bool_decide (index_of r = i)) l.
Proof.
  unfold cells_of. induction l as [|r l IH]; [done|]. cbn.
  destruct (decide (index_of r = i)) as [<-|Hne].
  - rewrite bool_decide_eq_true_2 by done. cbn.
    by rewrite row_of_index_of, IH.
  - by rewrite bool_decide_eq_false_2.
Qed.

(** Through the wide table and back, a frame keeps its rows, in another
    order. *)
Lemma timeseries_data (df : IamDataFrame) :
  Permutation (data (IamDataFrame_of (timeseries df))) (data df).
Proof.
  unfold IamDataFrame_of, timeseries. cbn [data rows].
  rewrite flat_map_concat_map, map_map, <- flat_map_concat_map. cbn [fst snd].
  erewrite flat_map_ext by (intros i; apply map_row_of_cells).
  apply (group_Permutation index_of).
  - apply unique_NoDup.
  - intros r Hr. apply unique_In. by apply in_map.
Qed.

(** ** The loop over the time steps *)

Lemma interpolate_columns_rows (d : list (Z * Interpolator)) (times : list Z) :
  forall t0 t,
    List.NoDup times ->
    interpolate_columns d times t0 = inr t ->
    col_kind t = col_kind t0
    /\ rows t = map (fun ic => (fst ic, map (interpolate_cell d times) (snd ic)))
                    (rows t0).
Proof.
  induction times as [|time times IH]; intros t0 t Hnd Hrun.
  - cbn in Hrun. injection Hrun as <-. split; [done|].
    rewrite <- (map_id (rows t0)) at 1. apply map_ext. intros [i cells]. cbn.
    f_equal. rewrite <- (map_id cells) at 1. by apply map_ext.
  - cbn in Hrun. destruct (getitem d time) as [f|] eqn:Hf; [|done].
    destruct (mem_time time (columns t0)); [|done].
    inversion Hnd as [|? ? Hnot Hnd']; subst.
    destruct (IH _ _ Hnd' Hrun) as [Hk Hrows]. split; [done|].
    rewrite Hrows. cbn [assign_column rows]. rewrite map_map.
    apply map_ext. intros [i cells]. cbn [fst snd]. f_equal.
    rewrite map_map. apply map_ext. intros [ct cv].
    unfold interpolate_cell. cbn [fst snd mem_time existsb].
    destruct (Z.eqb_spec ct time) as [->|Hne].
    + cbn [fst snd orb].
      assert (Hm : mem_time time times = false).
      { apply not_true_is_false. intros H. apply Hnot.
        by apply (mem_time_In time times). }
      by rewrite Hm, Hf.
    + done.
Qed.

(** The rows of a successful fill: every leader row of the input, as the
    wide table lists them, with the follower's name and unit and its value
    sent through the interpolator of its time step. *)
Lemma filled_data (rel : Relationship) (df out : IamDataFrame) :
  filled rel df = inr out ->
  exists follower_unit,
    head (follower_units rel) = Some follower_unit
    /\ time_col out = time_col df
    /\ data out
       = map (fill_row rel follower_unit)
           (data (IamDataFrame_of
                    (timeseries (filter_variable (variable_leaders rel) df)))).
Proof.
  unfold filled. intros H.
  destruct (negb _); [done|].
  destruct (_get_unit_of_variable _ _); [done|].
  destruct (negb _); [done|]. destruct (negb _); [done|].
  destruct (existsb _ _); [done|].
  destruct (interpolate_columns _ _ _) as [e|t] eqn:Hloop; [done|].
  destruct (follower_units rel) as [|u us]; [done|].
  injection H as <-. exists u. split; [done|].
  apply interpolate_columns_rows in Hloop as [Hk Hrows];
    [|apply sorted_unique_NoDup].
  split; [done|].
  unfold IamDataFrame_of. cbn [data rows set_unit set_variable reset_index].
  rewrite Hrows. cbn [timeseries rows].
  rewrite !map_map. rewrite !flat_map_concat_map, !map_map, concat_map.
  f_equal. rewrite map_map. apply map_ext_in. intros i Hi. cbn [fst snd].
  rewrite !map_map. apply map_ext_in. intros [ct cv] Hc.
  unfold interpolate_cell, fill_row, row_of. cbn [fst snd].
  assert (Hm : mem_time ct (sorted_unique Z.compare (map r_time (data df))) = true).
  { apply mem_time_In, sorted_unique_In.
    unfold cells_of in Hc. apply in_map_iff in Hc as [r [Heq Hr]].
    injection Heq as <- _. apply filter_In in Hr as [Hr _].
    cbn in Hr. apply filter_In in Hr as [Hr _]. by apply in_map. }
  rewrite Hm. cbn [fst snd]. done.
Qed.

Lemma mem_string_In (s : string) (l : list string) :
  mem_string s l = true <-> In s l.
Proof.
  unfold mem_string. rewrite existsb_exists. split.
  - intros [x [Hx Heq]]. apply String.eqb_eq in Heq. by subst.
  - intros H. exists s. split; [done|apply String.eqb_refl].
Qed.

Lemma TimeCol_eqb_eq (a b : TimeCol) : TimeCol_eqb a b = true <-> a = b.
Proof. by destruct a, b. Qed.

(** ** What a run of the filler tells about [filled] *)

Lemma filler_success (rel : Relationship) (in_iamdf : loc) (df : IamDataFrame)
    (h : heap) (l' : loc) :
  h !! in_iamdf = Some (OFrame df) ->
  (filler rel in_iamdf h).2 = inr l' ->
  exists out, filled rel df = inr out
              /\ h !! l' = None
              /\ (filler rel in_iamdf h).1 !! l' = Some (OFrame out).
Proof.
  intros Hl Hr. destruct (filler_run rel in_iamdf df h Hl) as [_ Hrun].
  destruct (filled rel df) as [e|out].
  - congruence.
  - destruct Hrun as [l0 [Hl0 [Hnew Hout]]].
    assert (l0 = l') as -> by congruence. by exists out.
Qed.

(** What [filled] raises, the filler raises. *)
Lemma filler_failure (rel : Relationship) (in_iamdf : loc) (df : IamDataFrame)
    (h : heap) (e : exn) :
  h !! in_iamdf = Some (OFrame df) ->
  filled rel df = inl e ->
  (filler rel in_iamdf h).2 = inl e.
Proof.
  intros Hl He. destruct (filler_run rel in_iamdf df h Hl) as [_ Hrun].
  by rewrite He in Hrun.
Qed.


(** ** The checks that come before the time steps are looked at *)

Lemma single_unit (df : IamDataFrame) (vars : list string) (u : string) :
  (exists r, In r (data df) /\ In (r_variable r) vars) ->
  (forall r, In r (data df) -> In (r_variable r) vars -> r_unit r = u) ->
  _get_unit_of_variable df vars = [u]
  /\ nunique (map r_unit (data (filter_variable vars df))) = 1%nat.
Proof.
  intros [r [Hr Hv]] Hall.
  assert (H : unique (map r_unit (data (filter_variable vars df))) = [u]).
  { apply unique_const.
    - intros Hnil. apply map_eq_nil in Hnil.
      assert (Hin : In r (data (filter_variable vars df))).
      { cbn. apply filter_In. split; [done|]. by apply mem_string_In. }
      rewrite Hnil in Hin. done.
    - intros x Hx. apply in_map_iff in Hx as [r' [<- Hr']].
      cbn in Hr'. apply filter_In in Hr' as [Hr' Hv'].
      apply Hall; [done|]. by apply mem_string_In. }
  split; [exact H|]. unfold nunique. by rewrite H.
Qed.

(** The test of line 134. *)
Lemma missing_time_existsb (d : list (Z * Interpolator)) (times : list Z) :
  (exists t, In t times /\ ~ In t (keys d)) ->
  existsb (fun x => negb (mem_time x (keys d))) (sorted_unique Z.compare times)
  = true.
Proof.
  intros [t [Ht Hk]]. apply existsb_exists. exists t. split.
  - by apply sorted_unique_In.
  - apply negb_true_iff, not_true_is_false. intros H. by apply mem_time_In in H.
Qed.

(** A time step without interpolator never gets past line 134. *)
Lemma filled_missing_time (rel : Relationship) (df : IamDataFrame) :
  (exists t, In t (map r_time (data df)) /\ ~ In t (keys (interpolators rel))) ->
  exists e, filled rel df = inl e.
Proof.
  intros Hmiss. unfold filled.
  destruct (negb _); [by eexists|].
  destruct (_get_unit_of_variable _ _); [by eexists|].
  destruct (negb _); [by eexists|]. destruct (negb _); [by eexists|].
  rewrite missing_time_existsb by done. by eexists.
Qed.


Local Open Scope Q_scope.

Lemma Qle_bool_false (x y : Q) : Qle_bool x y = false -> y < x.
Proof.
  intros H. destruct (Qlt_le_dec y x) as [Hlt|Hle]; [done|].
  apply Qle_bool_iff in Hle. congruence.
Qed.

(** A segment ends at its right control point. *)
Lemma segment_end (x0 y0 x1 y1 x : Q) :
  x0 < x1 -> x == x1 -> y0 + (x - x0) * ((y1 - y0) / (x1 - x0)) == y1.
Proof. intros Hlt Hx. rewrite Hx. field. lra. Qed.

(** Past the last control point the value is the last one. *)
Lemma interp_from_above (rest : Interpolator) :
  forall x0 y0 c_max v_max x,
    increasing_centers ((x0, y0) :: rest) ->
    last ((x0, y0) :: rest) = Some (c_max, v_max) ->
    x0 < x -> c_max <= x ->
    interp_from x0 y0 rest x == v_max.
Proof.
  induction rest as [|[x1 y1] rest IH]; intros x0 y0 c_max v_max x Hs Hlast Hx0 Hx.
  - cbn in *. injection Hlast as _ ->. reflexivity.
  - cbn [interp_from]. inversion Hs as [|? ? Hs' Hall]; subst.
    assert (H01 : x0 < x1) by (inversion Hall; subst; done).
    rewrite last_cons_cons in Hlast.
    destruct (Qle_bool x x1) eqn:E.
    + apply Qle_bool_iff in E.
      destruct rest as [|[x2 y2] rest].
      * cbn in Hlast. injection Hlast as <- <-.
        apply segment_end; [done|]. lra.
      * exfalso. rewrite last_cons_cons in Hlast.
        apply last_Some_elem_of, list_elem_of_In in Hlast.
        inversion Hs' as [|? ? _ Hall']; subst.
        rewrite List.Forall_forall in Hall'. specialize (Hall' _ Hlast).
        cbn in Hall'. lra.
    + apply Qle_bool_false in E. by apply (IH x1 y1 c_max v_max x).
Qed.

(** At a control point the value is the recorded one. *)
Lemma interp_from_knot (rest : Interpolator) :
  forall x0 y0 xk yk x,
    increasing_centers ((x0, y0) :: rest) ->
    In (xk, yk) rest -> x == xk ->
    interp_from x0 y0 rest x == yk.
Proof.
  induction rest as [|[x1 y1] rest IH]; intros x0 y0 xk yk x Hs Hin Hx; [done|].
  cbn [interp_from]. inversion Hs as [|? ? Hs' Hall]; subst.
  assert (H01 : x0 < x1) by (inversion Hall; subst; done).
  destruct Hin as [Heq|Hin].
  - injection Heq as -> ->.
    assert (E : Qle_bool x xk = true) by (apply Qle_bool_iff; lra).
    rewrite E. by apply segment_end.
  - inversion Hs' as [|? ? _ Hall']; subst.
    rewrite List.Forall_forall in Hall'. pose proof (Hall' _ Hin) as Hk. cbn in Hk.
    assert (E : Qle_bool x x1 = false).
    { destruct (Qle_bool x x1) eqn:E; [|done].
      apply Qle_bool_iff in E. lra. }
    rewrite E. by apply (IH x1 y1 xk yk x).
Qed.

(** At a control point the interpolator returns that point's value. *)
Lemma interp_knot (curve : Interpolator) (xk yk x : Q) :
  increasing_centers curve -> In (xk, yk) curve -> x == xk ->
  interp curve x == yk.
Proof.
  intros Hs Hin Hx. destruct curve as [|[x0 y0] rest]; [done|].
  cbn [interp]. destruct Hin as [Heq|Hin].
  - injection Heq as -> ->.
    assert (E : Qle_bool x xk = true) by (apply Qle_bool_iff; lra).
    by rewrite E.
  - inversion Hs as [|? ? Hs' Hall]; subst.
    rewrite List.Forall_forall in Hall. pose proof (Hall _ Hin) as Hk. cbn in Hk.
    assert (E : Qle_bool x x0 = false).
    { destruct (Qle_bool x x0) eqn:E; [|done].
      apply Qle_bool_iff in E. lra. }
    rewrite E. by apply (interp_from_knot rest x0 y0 xk yk x).
Qed.

(** At or below the first control point the value is the first one. *)
Lemma interp_below (c_min v_min : Q) (rest : Interpolator) (x : Q) :
  x <= c_min -> interp ((c_min, v_min) :: rest) x = v_min.
Proof. intros Hx. cbn. apply Qle_bool_iff in Hx. by rewrite Hx. Qed.

(** At or above the last control point the value is the last one. *)
Lemma interp_above (curve : Interpolator) (c_max v_max x : Q) :
  increasing_centers curve ->
  last curve = Some (c_max, v_max) ->
  c_max <= x ->
  interp curve x == v_max.
Proof.
  intros Hs Hlast Hx. destruct curve as [|[x0 y0] rest]; [done|].
  cbn [interp]. destruct (Qle_bool x x0) eqn:E.
  - apply Qle_bool_iff in E.
    destruct rest as [|[x1 y1] rest].
    + cbn in Hlast. by injection Hlast as _ ->.
    + exfalso. rewrite last_cons_cons in Hlast.
      apply last_Some_elem_of, list_elem_of_In in Hlast.
      inversion Hs as [|? ? _ Hall]; subst.
      rewrite List.Forall_forall in Hall. specialize (Hall _ Hlast).
      cbn in Hall. lra.
  - apply Qle_bool_false in E. by apply (interp_from_above rest x0 y0 c_max).
Qed.

(** ** Sorted distinct leader values *)

Lemma insert_unique_Q_In (x y : Q) (l : list Q) :
  In y (insert_unique Qcompare x l) -> y = x \/ In y l.
Proof.
  induction l as [|a l IH]; cbn.
  - intuition.
  - destruct (x ?= a); cbn; intuition.
Qed.

Lemma insert_unique_Q_keeps (x y : Q) (l : list Q) :
  In y l -> In y (insert_unique Qcompare x l).
Proof.
  induction l as [|a l IH]; cbn; [done|].
  destruct (x ?= a); cbn; intuition.
Qed.

Lemma insert_unique_Q_has (x : Q) (l : list Q) :
  exists y, In y (insert_unique Qcompare x l) /\ y == x.
Proof.
  induction l as [|a l IH]; cbn.
  - exists x. split; [by left|reflexivity].
  - destruct (Qcompare_spec x a) as [Heq|Hlt|Hgt].
    + exists a. split; [by left|by symmetry].
    + exists x. split; [by left|reflexivity].
    + destruct IH as [y [Hy Hyx]]. exists y. split; [by right|done].
Qed.

Lemma sorted_unique_Q_In (y : Q) (l : list Q) :
  In y (sorted_unique Qcompare l) -> In y l.
Proof.
  induction l as [|x l IH]; [done|]. cbn. intros H.
  apply insert_unique_Q_In in H as [->|H]; auto.
Qed.

Lemma sorted_unique_Q_has (x : Q) (l : list Q) :
  In x l -> exists y, In y (sorted_unique Qcompare l) /\ y == x.
Proof.
  induction l as [|a l IH]; [done|]. cbn. intros [->|H].
  - apply insert_unique_Q_has.
  - destruct (IH H) as [y [Hy Hyx]]. exists y. split; [|done].
    by apply insert_unique_Q_keeps.
Qed.

Lemma insert_unique_Q_sorted (x : Q) (l : list Q) :
  StronglySorted Qlt l -> StronglySorted Qlt (insert_unique Qcompare x l).
Proof.
  induction l as [|a l IH]; intros Hs; cbn.
  - repeat constructor.
  - inversion Hs as [|? ? Hs' Hall]; subst.
    destruct (Qcompare_spec x a) as [Heq|Hlt|Hgt].
    + done.
    + constructor; [done|]. constructor; [done|].
      eapply List.Forall_impl; [|exact Hall]. cbn. intros b Hb. lra.
    + constructor; [by apply IH|].
      rewrite List.Forall_forall in *. intros y Hy.
      apply insert_unique_Q_In in Hy as [->|Hy]; [done|by apply Hall].
Qed.

Lemma sorted_unique_Q_sorted (l : list Q) :
  StronglySorted Qlt (sorted_unique Qcompare l).
Proof.
  induction l; cbn; [constructor|by apply insert_unique_Q_sorted].
Qed.

(** ** The mean of equal values *)

Lemma Qsum_const (x : Q) (l : list Q) :
  (forall y, In y l -> y == x) ->
  Qsum l == inject_Z (Z.of_nat (length l)) * x.
Proof.
  induction l as [|y l IH]; intros Hall.
  - change (inject_Z (Z.of_nat (length []))) with 0. cbn. ring.
  - cbn [Qsum fold_right length]. fold (Qsum l).
    rewrite IH by (intros z Hz; apply Hall; by right).
    rewrite (Hall y) by (by left).
    rewrite Nat2Z.inj_succ, <- Z.add_1_r, inject_Z_plus.
    change (inject_Z 1) with 1. ring.
Qed.

(** The mean of equal numbers is that number. *)
Lemma mean_const (x : Q) (l : list Q) :
  l <> [] -> (forall y, In y l -> y == x) -> mean l == x.
Proof.
  intros Hne Hall. unfold mean. rewrite Qsum_const by done.
  assert (Hpos : 0 < inject_Z (Z.of_nat (length l))).
  { change 0 with (inject_Z 0). rewrite <- Zlt_Qlt.
    destruct l; [done|]. cbn [length]. lia. }
  field. lra.
Qed.

(** ** Control points *)

Lemma control_points_increasing (pairs : list (Q * Q)) :
  increasing_centers (control_points pairs).
Proof.
  unfold control_points, increasing_centers.
  pose proof (sorted_unique_Q_sorted (map fst pairs)) as Hs.
  induction Hs as [|x l Hs IH Hall]; cbn; constructor; [done|].
  rewrite List.Forall_forall in *. intros p Hp.
  apply in_map_iff in Hp as [y [<- Hy]]. cbn. by apply Hall.
Qed.

(** When every pair has equal components, so has every control point, and
    every leader value has one. *)
Lemma control_points_diagonal (pairs : list (Q * Q)) (v : Q) :
  (forall p, In p pairs -> fst p == snd p) ->
  In v (map fst pairs) ->
  exists x y, In (x, y) (control_points pairs) /\ x == v /\ y == v.
Proof.
  intros Hdiag Hv.
  destruct (sorted_unique_Q_has v _ Hv) as [x [Hx Hxv]].
  exists x. eexists. split.
  - unfold control_points. apply in_map_iff. exists x. split; [reflexivity|done].
  - split; [done|]. rewrite <- Hxv. apply mean_const.
    + apply sorted_unique_Q_In, in_map_iff in Hx as [p [Hp Hin]].
      intros Hnil. apply map_eq_nil in Hnil.
      assert (Hf : In p (List.filter (fun p => Qeq_bool (fst p) x) pairs)).
      { apply filter_In. split; [done|]. rewrite Hp. apply Qeq_bool_iff. reflexivity. }
      by rewrite Hnil in Hf.
    + intros y Hy. apply in_map_iff in Hy as [p [<- Hp]].
      apply filter_In in Hp as [Hp Heq]. apply Qeq_bool_iff in Heq.
      rewrite <- (Hdiag p Hp). done.
Qed.

(** Hence the interpolator maps every leader value to itself. *)
Lemma control_points_round_trip (pairs : list (Q * Q)) (v : Q) :
  (forall p, In p pairs -> fst p == snd p) ->
  In v (map fst pairs) ->
  interp (control_points pairs) v == v.
Proof.
  intros Hdiag Hv.
  destruct (control_points_diagonal pairs v Hdiag Hv) as [x [y [Hin [Hx Hy]]]].
  rewrite <- Hy at 2.
  apply (interp_knot _ x y v); [apply control_points_increasing|done|by symmetry].
Qed.

Local Close Scope Q_scope.



(** ** The wide form of a database that holds one variable [X] *)

Section SameVariable.
Context (X : string) (use : IamDataFrame).
Context (Hvar : forall r, In r (data use) -> r_variable r = X).
Context (Hfun : forall r r', In r (data use) -> In r' (data use) ->
                  series_of r = series_of r' -> r_time r = r_time r' ->
                  (r_value r == r_value r')%Q).





Lemma getitem_keys {V} (d : list (Z * V)) (t : Z) (v : V) :
  getitem d t = Some v -> In t (keys d).
Proof.
  induction d as [|[k w] d IH]; [done|]. cbn.
  destruct (Z.eqb_spec k t) as [->|Hne]; [by left|]. intros H. right. by apply IH.
Qed.

End SameVariable.


(** The loop succeeds when every time step has an interpolator and a
    column. *)
Lemma interpolate_columns_succeeds (d : list (Z * Interpolator))
    (times : list Z) :
  forall t0,
    (forall time, In time times ->
                  In time (keys d) /\ In time (columns t0)) ->
    exists t, interpolate_columns d times t0 = inr t.
Proof.
  induction times as [|time times IH]; intros t0 Hall; [by eexists|].
  cbn. destruct (Hall time) as [Hk Hc]; [by left|].
  destruct (getitem d time) as [f|] eqn:Hf.
  - rewrite (proj2 (mem_time_In _ _) Hc). apply IH.
    intros t Ht. apply Hall. by right.
  - exfalso. clear -Hk Hf. induction d as [|[k v] d IHd]; [done|].
    cbn in Hf, Hk. destruct (Z.eqb_spec k time); [done|].
    destruct Hk as [Hk|Hk]; [done|]. by apply IHd.
Qed.





Lemma insert_unique_nonempty {A} (cmp : A -> A -> comparison) (x : A)
    (l : list A) : insert_unique cmp x l <> [].
Proof. destruct l as [|a l]; cbn; [done|]. by destruct (cmp x a). Qed.

(** * The claims *)

(** ** C1: the worked example of the test *)

Local Open Scope Q_scope.


(** The second and third part of the same test: with quantile 0.59 the
    second scenario is "too high" and gets the upper value 1; with quantile
    0.083 both are "below the lower quantile limit" and get 0. *)
Example worked_example_quantile_059 :
  let curve :=
    QuantileRollingWindows.quantile_curve simple_df_2010_windows 0.59 in
  interp curve 0 == (0.59 - 5 / 12) * 2 /\ interp curve 1 == 1.
Proof. split; vm_compute; reflexivity. Qed.

Example worked_example_quantile_0083 :
  let curve :=
    QuantileRollingWindows.quantile_curve simple_df_2010_windows 0.083 in
  interp curve 0 == 0 /\ interp curve 1 == 0.
Proof. split; vm_compute; reflexivity. Qed.

Lemma Qeq_bool_false_of_pos (w : Q) : 0 < w -> Qeq_bool w 0 = false.
Proof.
  intros Hw. destruct (Qeq_bool w 0) eqn:E; [|done].
  apply Qeq_bool_iff in E. lra.
Qed.

(** Section 8, "the computed quantile output is a deterministic affine
    function of relative rank": for two samples with follower values 0 and
    1 and weights [w0] and [w1] that sum to 1, a target between the two
    midpoints [w0 / 2] and [w0 + w1 / 2] gives [(quantile - w0 / 2) * 2].
    The values of C1 are the cases [w0 = 5/6] and [w0 = 1/6]. *)
Lemma two_sample_quantile (w0 w1 quantile : Q) :
  0 < w0 -> 0 < w1 -> w0 + w1 == 1 ->
  w0 / 2 < quantile -> quantile <= w0 + w1 / 2 ->
  fst (QuantileRollingWindows.weighted_quantile
         [QuantileRollingWindows.Build_Sample 0 0 w0;
          QuantileRollingWindows.Build_Sample 1 1 w1] quantile)
  == (quantile - w0 / 2) * 2.
Proof.
  intros H0 H1 Hsum Hlo Hhi. unfold QuantileRollingWindows.weighted_quantile.
  cbn [List.filter QuantileRollingWindows.weight].
  rewrite (Qeq_bool_false_of_pos w0), (Qeq_bool_false_of_pos w1) by done.
  cbn [negb map Qsum fold_right
    QuantileRollingWindows.weight].
  assert (Ht : Qeq_bool (w0 + (w1 + 0)) 0 = false)
    by (apply Qeq_bool_false_of_pos; lra).
  rewrite Ht. cbn [fst].
  change (QuantileRollingWindows.sort_by_follower
            [QuantileRollingWindows.Build_Sample 0 0 w0;
             QuantileRollingWindows.Build_Sample 1 1 w1])
    with [QuantileRollingWindows.Build_Sample 0 0 w0;
          QuantileRollingWindows.Build_Sample 1 1 w1].
  cbn [QuantileRollingWindows.cumulative_midpoints
         QuantileRollingWindows.weight QuantileRollingWindows.follower_value
         interp interp_from].
  assert (Htot : w0 + (w1 + 0) == 1) by lra.
  assert (Hx0 : (0 + w0 / 2) / (w0 + (w1 + 0)) == w0 / 2)
    by (rewrite Htot; field).
  assert (Hx1 : (0 + w0 + w1 / 2) / (w0 + (w1 + 0)) == w0 + w1 / 2)
    by (rewrite Htot; field).
  assert (E0 : Qle_bool quantile ((0 + w0 / 2) / (w0 + (w1 + 0))) = false).
  { destruct (Qle_bool _ _) eqn:E; [|done]. apply Qle_bool_iff in E.
    rewrite Hx0 in E. lra. }
  assert (E1 : Qle_bool quantile ((0 + w0 + w1 / 2) / (w0 + (w1 + 0))) = true).
  { apply Qle_bool_iff. rewrite Hx1. lra. }
  rewrite E0, E1. rewrite Hx0, Hx1.
  assert (Hd : w0 + w1 / 2 - w0 / 2 == 1 / 2)
    by (clear - Hsum; field_simplify_eq; lra).
  rewrite Hd. field.
Qed.

Local Close Scope Q_scope.

(** ** C2: flat extrapolation *)

(** Every interpolator that [make_interpolator] builds, hence every one of a
    derived relationship, has control points at strictly increasing
    positions and at least one of them. *)
Lemma make_interpolator_increasing (follower : string) (leaders : list string)
    (w : WideDb) (tc : TimeCol) (time : Z) (curve : Interpolator) :
  In (time, curve) (make_interpolator follower leaders w tc) ->
  increasing_centers curve /\ curve <> [].
Proof.
  unfold make_interpolator. destruct leaders as [|leader [|? ?]]; [done| |done].
  intros Hin. apply in_flat_map in Hin as [t [_ Hin]].
  destruct (paired_values leader follower w t) as [|p ps]; [done|].
  destruct Hin as [Heq|[]]. injection Heq as _ <-. split.
  - apply control_points_increasing.
  - unfold control_points. cbn [map sorted_unique fold_right]. intros Hnil.
    apply map_eq_nil in Hnil. by apply insert_unique_nonempty in Hnil.
Qed.

Lemma derived_interpolators_increasing (db : IamDataFrame)
    (follower : string) (leaders : list string) (scenario : string)
    (rel : Relationship) (time : Z) (curve : Interpolator) :
  derived db follower leaders scenario = inr rel ->
  In (time, curve) (interpolators rel) ->
  increasing_centers curve /\ curve <> [].
Proof.
  unfold derived. intros H.
  destruct (negb _); [done|]. destruct (data _); [done|].
  destruct (_get_unit_of_variable _ leaders); [done|].
  destruct (_get_unit_of_variable _ [follower]); [done|].
  injection H as <-. cbn [interpolators]. apply make_interpolator_increasing.
Qed.

Local Open Scope Q_scope.


Local Close Scope Q_scope.


(** In terms of the rows that the filler returns: two rows of the leader at
    the same time step whose values both lie at or beyond the same boundary
    of that time step's interpolator are filled with equal values. *)
Lemma fill_row_beyond_maximum (rel : Relationship) (u : string) (r r' : Row)
    (curve : Interpolator) (c_max v_max : Q) :
  getitem (interpolators rel) (r_time r) = Some curve ->
  increasing_centers curve ->
  last curve = Some (c_max, v_max) ->
  r_time r' = r_time r ->
  (c_max <= r_value r)%Q -> (c_max <= r_value r')%Q ->
  (r_value (fill_row rel u r') == r_value (fill_row rel u r))%Q.
Proof.
  intros Hf Hs Hlast Ht Hr Hr'. unfold fill_row. cbn [r_value r_time].
  rewrite Ht, Hf.
  rewrite (interp_above curve c_max v_max (r_value r)) by done.
  by rewrite (interp_above curve c_max v_max (r_value r')).
Qed.

Lemma fill_row_beyond_minimum (rel : Relationship) (u : string) (r r' : Row)
    (curve : Interpolator) (c_min v_min : Q) :
  getitem (interpolators rel) (r_time r) = Some curve ->
  head curve = Some (c_min, v_min) ->
  r_time r' = r_time r ->
  (r_value r <= c_min)%Q -> (r_value r' <= c_min)%Q ->
  (r_value (fill_row rel u r') == r_value (fill_row rel u r))%Q.
Proof.
  intros Hf Hhead Ht Hr Hr'. unfold fill_row. cbn [r_value r_time].
  rewrite Ht, Hf. destruct curve as [|[c v] rest]; [done|].
  injection Hhead as -> ->. by rewrite !interp_below.
Qed.

(** ** C3: deriving a variable from itself *)


(** The rolling-window quantile of the specification does not give back a
    variable derived from itself either.  With the one window that section
    4.1 plans for nwindows = 1 (its center at the midpoint, here 1/2, so that
    samples at 0 and 1 weigh the same), the median of the follower values 0
    and 1 is 1/2, and both scenarios are filled with it. *)
Example single_window_median :
  (interp
     (QuantileRollingWindows.quantile_curve
        [(0.5, [QuantileRollingWindows.Build_Sample 0 0 (1 # 2);
                QuantileRollingWindows.Build_Sample 1 1 (1 # 2)])] 0.5) 0
   == 0.5
   /\ interp
        (QuantileRollingWindows.quantile_curve
           [(0.5, [QuantileRollingWindows.Build_Sample 0 0 (1 # 2);
                   QuantileRollingWindows.Build_Sample 1 1 (1 # 2)])] 0.5) 1
      == 0.5)%Q.
Proof. split; vm_compute; reflexivity. Qed.



(** ** C5: a quantile outside [0, 1] *)

Local Open Scope Q_scope.



Local Close Scope Q_scope.


(** ** C6: a time step without interpolator *)

(** C6 as stated fails when an earlier check of the filler fails: the
    relationship of [test_relationship_usage_insufficient_timepoints] has no
    interpolator for 2030, the data to fill has 2030 but carries another
    unit, and the error is the units mismatch. *)
Lemma missing_timepoint_wrong_unit :
  (In 2030%Z (map r_time (data (with_unit "t C/yr" tdownscale_df)))
   /\ ~ In 2030%Z
        (keys (interpolators
                 (relationship_of (without_year 2030 tdb) "Emissions|CH4"
                    "Emissions|CO2" "Gt C/yr" "Mt CH4/yr"))))
  /\ (filler (relationship_of (without_year 2030 tdb) "Emissions|CH4"
                "Emissions|CO2" "Gt C/yr" "Mt CH4/yr")
        2%positive
        (store_of (without_year 2030 tdb)
           (with_unit "t C/yr" tdownscale_df))).2
     = inl (ValueError (UnitsMismatch "Gt C/yr" "t C/yr")).
Proof.
  split; [split|].
  - vm_compute. right. left. reflexivity.
  - vm_compute. intros [H|[H|[H|[]]]]; discriminate H.
  - vm_compute. reflexivity.
Qed.

(** C6, amended.  When a time step of the new data has no interpolator, the
    call fails and returns no frame; and when the earlier checks pass (same
    time column, leader rows present and all in the recorded unit) the
    failure is the ValueError that lists the crunched time steps and the
    time steps passed in. *)
Theorem missing_timepoint_fails (rel : Relationship) (in_iamdf : loc)
    (df : IamDataFrame) (h : heap) :
  h !! in_iamdf = Some (OFrame df) ->
  (exists t, In t (map r_time (data df)) /\ ~ In t (keys (interpolators rel))) ->
  (exists e, (filler rel in_iamdf h).2 = inl e)
  /\ (time_col df = use_db_time_col rel ->
      (exists r, In r (data df) /\ In (r_variable r) (variable_leaders rel)) ->
      (forall r, In r (data df) -> In (r_variable r) (variable_leaders rel) ->
                 r_unit r = leader_units rel) ->
      (filler rel in_iamdf h).2
      = inl (ValueError
               (MissingTimepoints (keys (interpolators rel))
                  (sorted_unique Z.compare (map r_time (data df)))))).
Proof.
  intros Hl Hmiss. split.
  - destruct (filled_missing_time rel df Hmiss) as [e He].
    exists e. by apply filler_failure with df.
  - intros Htc Hex Hunit. apply filler_failure with df; [done|].
    unfold filled.
    rewrite (proj2 (TimeCol_eqb_eq _ _) (eq_sym Htc)). cbn [negb].
    destruct (single_unit df _ _ Hex Hunit) as [-> ->].
    rewrite String.eqb_refl. cbn [negb Nat.eqb].
    by rewrite missing_time_existsb.
Qed.

(** [test_relationship_usage_insufficient_timepoints]: crunched 2010, 2050,
    2070; passed in 2010, 2030, 2050, 2070. *)
Lemma missing_timepoint_fails_witness :
  (filler (relationship_of (without_year 2030 tdb) "Emissions|CH4"
             "Emissions|CO2" "Gt C/yr" "Mt CH4/yr")
     2%positive (store_of (without_year 2030 tdb) tdownscale_df)).2
  = inl (ValueError
           (MissingTimepoints [2010; 2050; 2070]%Z
              [2010; 2030; 2050; 2070]%Z)).
Proof.
  apply (missing_timepoint_fails
           (relationship_of (without_year 2030 tdb) "Emissions|CH4"
              "Emissions|CO2" "Gt C/yr" "Mt CH4/yr")
           2%positive tdownscale_df
           (store_of (without_year 2030 tdb) tdownscale_df)).
  - vm_compute. reflexivity.
  - exists 2030%Z. split.
    + vm_compute. right. left. reflexivity.
    + vm_compute. intros [H|[H|[H|[]]]]; discriminate H.
  - reflexivity.
  - eexists. split; [left; reflexivity|]. left. reflexivity.
  - intros r Hr _. vm_compute in Hr.
    repeat (destruct Hr as [<-|Hr]; [reflexivity|]). destruct Hr.
Defined.

(** ** C7: what a successful call returns *)

(** C7.  The frame that a successful call of the filler returns holds rows
    of the follower variable only, each under the first unit recorded for
    the follower, and they stand at exactly the (model, scenario, region)
    and time steps of the leader rows of the input. *)
Theorem filler_returns_follower_rows (rel : Relationship) (in_iamdf : loc)
    (df : IamDataFrame) (h : heap) (l' : loc) (out : IamDataFrame) :
  h !! in_iamdf = Some (OFrame df) ->
  (filler rel in_iamdf h).2 = inr l' ->
  (filler rel in_iamdf h).1 !! l' = Some (OFrame out) ->
  (forall r, In r (data out) ->
             r_variable r = variable_follower rel
             /\ head (follower_units rel) = Some (r_unit r))
  /\ Permutation (map series_time (data out))
       (map series_time (data (filter_variable (variable_leaders rel) df))).
Proof.
  intros Hl Hr Hout.
  destruct (filler_success rel in_iamdf df h l' Hl Hr) as [out' [Hf [_ Hout']]].
  assert (out' = out) as -> by congruence.
  destruct (filled_data rel df out Hf) as [u [Hu [_ Hdata]]].
  rewrite Hdata. split.
  - intros r Hin. apply in_map_iff in Hin as [r0 [<- _]]. by cbn.
  - rewrite map_map.
    erewrite map_ext by (intros r; reflexivity).
    change (fun x => series_time (fill_row rel u x)) with series_time.
    apply Permutation_map, timeseries_data.
Qed.

(** The relationship derived from [tdb] is what the next lemmas fill
    with. *)
Example derived_tdb :
  derived tdb "Emissions|CH4" ["Emissions|CO2"] "*"
  = inr (relationship_of tdb "Emissions|CH4" "Emissions|CO2" "Gt C/yr"
           "Mt CH4/yr").
Proof. vm_compute. reflexivity. Qed.

(** Filling [tdownscale_df] with the relationship from CO2 to CH4 of
    [tdb]. *)
Lemma filler_returns_follower_rows_witness :
  (forall r,
      In r (data (returned_frame
                    (filler (relationship_of tdb "Emissions|CH4"
                               "Emissions|CO2" "Gt C/yr" "Mt CH4/yr")
                       2%positive (store_of tdb tdownscale_df)))) ->
      r_variable r = "Emissions|CH4"%string
      /\ head ["Mt CH4/yr"%string] = Some (r_unit r))
  /\ Permutation
       (map series_time
          (data (returned_frame
                   (filler (relationship_of tdb "Emissions|CH4"
                              "Emissions|CO2" "Gt C/yr" "Mt CH4/yr")
                      2%positive (store_of tdb tdownscale_df)))))
       (map series_time
          (data (filter_variable ["Emissions|CO2"%string] tdownscale_df))).
Proof.
  apply (filler_returns_follower_rows
           (relationship_of tdb "Emissions|CH4" "Emissions|CO2" "Gt C/yr"
              "Mt CH4/yr")
           2%positive tdownscale_df (store_of tdb tdownscale_df) 5%positive);
    vm_compute; reflexivity.
Defined.

(** ** C8: more than one leader *)

(** C8.  When [variable_leaders] does not have exactly one element the call
    raises NotImplementedError and leaves the store as it was: nothing has
    been read or filtered, whatever the reference database holds (even
    none). *)
Theorem more_than_one_leader_first (self : Cruncher) (follower : string)
    (leaders : list string) (scenario : string) (h : heap) :
  length leaders <> 1%nat ->
  derive_relationship self follower leaders scenario h
  = (h, inl (NotImplementedError MoreThanOneLeader)).
Proof. apply derive_relationship_not_one. Qed.

(** The call of [test_derive_relationship_with_multicolumns], on an empty
    database. *)
Lemma more_than_one_leader_first_witness :
  derive_relationship {| _db := 1%positive |} "Emissions|CO2"
    ["Emissions|CH4"; "Emissions|HFC|C5F12"] "*"
    {[1%positive := OFrame {| time_col := Year; data := [] |}]}
  = ({[1%positive := OFrame {| time_col := Year; data := [] |}]},
     inl (NotImplementedError MoreThanOneLeader)).
Proof. apply more_than_one_leader_first. cbn. lia. Defined.

(** With one leader the same empty database is reported as such. *)
Example one_leader_empty_database :
  (derive_relationship {| _db := 1%positive |} "Emissions|CO2"
     ["Emissions|CH4"] "*"
     {[1%positive := OFrame {| time_col := Year; data := [] |}]}).2
  = inl (ValueError NoDataOfAppropriateType).
Proof. vm_compute. reflexivity. Qed.

(** ** C9: a leader recorded under several units *)




(** ** C10: the filler changes no object it was given *)

(** C10.  After a call of the filler every object that was in the store
    before (the input frame, the reference database of the cruncher, any
    other) is there unchanged, whether the call fails or not; a returned
    frame is at a location that was not in use; and a second call on the
    same input returns a frame with the same content. *)
Theorem filler_leaves_objects_unchanged (rel : Relationship) (in_iamdf : loc)
    (h : heap) :
  (forall l o, h !! l = Some o -> (filler rel in_iamdf h).1 !! l = Some o)
  /\ (forall l',
        (filler rel in_iamdf h).2 = inr l' ->
        h !! l' = None
        /\ exists out,
            (filler rel in_iamdf h).1 !! l' = Some (OFrame out)
            /\ exists l'',
                (filler rel in_iamdf (filler rel in_iamdf h).1).2 = inr l''
                /\ (filler rel in_iamdf (filler rel in_iamdf h).1).1 !! l''
                   = Some (OFrame out)).
Proof.
  destruct (h !! in_iamdf) as [[df|t]|] eqn:Hl.
  - destruct (filler_run rel in_iamdf df h Hl) as [Hsub Hrun]. split.
    + intros l o Hlo. eapply lookup_weaken; eauto.
    + intros l' Hr.
      destruct (filler_success rel in_iamdf df h l' Hl Hr)
        as [out [Hf [Hnew Hout]]].
      split; [done|]. exists out. split; [done|].
      assert (Hl' : (filler rel in_iamdf h).1 !! in_iamdf = Some (OFrame df))
        by (eapply lookup_weaken; eauto).
      destruct (filler_run rel in_iamdf df _ Hl') as [_ Hrun'].
      rewrite Hf in Hrun'. destruct Hrun' as [l'' [Hr'' [_ Hout'']]].
      by exists l''.
  - rewrite filler_no_frame by (intros df; congruence). cbn. split; done.
  - rewrite filler_no_frame by (intros df; congruence). cbn. split; done.
Qed.

(** ** Further properties of the filler and the builder *)

(** The time column is the first thing the filler checks (lines 109-113):
    when it differs from the one of the reference database, the call raises
    the ValueError that names the expected column and has built nothing. *)
Theorem time_column_checked_first (rel : Relationship) (in_iamdf : loc)
    (df : IamDataFrame) (h : heap) :
  h !! in_iamdf = Some (OFrame df) ->
  time_col df <> use_db_time_col rel ->
  filler rel in_iamdf h
  = (h, inl (ValueError (TimeColMismatch (use_db_time_col rel)))).
Proof.
  intros Hl Hne. unfold filler. rewrite bind_run, (get_frame_run _ df) by done.
  destruct (TimeCol_eqb (use_db_time_col rel) (time_col df)) eqn:E; [|done].
  apply TimeCol_eqb_eq in E. by destruct Hne.
Qed.

Lemma time_column_checked_first_witness :
  filler (relationship_of tdb "Emissions|CO2" "Emissions|CO2" "Gt C/yr"
            "Gt C/yr")
    2%positive
    (store_of tdb {| time_col := Datetime; data := data tdb |})
  = (store_of tdb {| time_col := Datetime; data := data tdb |},
     inl (ValueError (TimeColMismatch Year))).
Proof.
  refine (time_column_checked_first
            (relationship_of tdb "Emissions|CO2" "Emissions|CO2" "Gt C/yr"
               "Gt C/yr")
            2%positive {| time_col := Datetime; data := data tdb |}
            (store_of tdb {| time_col := Datetime; data := data tdb |}) _ _).
  - vm_compute. reflexivity.
  - discriminate.
Defined.

(** Lines 60-68: a reference database that has no row of the two variables
    in the scenarios asked for gives "There is no data of the appropriate
    type in the database". *)
Theorem no_data_of_the_appropriate_type (self : Cruncher)
    (follower leader scenario : string) (db : IamDataFrame) (h : heap) :
  h !! _db self = Some (OFrame db) ->
  data (filter_scenario_variable scenario [leader; follower] db) = [] ->
  (derive_relationship self follower [leader] scenario h).2
  = inl (ValueError NoDataOfAppropriateType).
Proof.
  intros Hl Hempty.
  destruct (derive_relationship_run self follower [leader] scenario db h Hl)
    as [_ ->].
  unfold derived. cbn [length Nat.eqb negb nth]. by rewrite Hempty.
Qed.

Lemma no_data_of_the_appropriate_type_witness :
  (derive_relationship {| _db := 1%positive |} "Emissions|CH4"
     ["Emissions|CO2"] "ssp7*" {[1%positive := OFrame tdb]}).2
  = inl (ValueError NoDataOfAppropriateType).
Proof.
  apply (no_data_of_the_appropriate_type _ _ _ _ tdb).
  - vm_compute. reflexivity.
  - vm_compute. reflexivity.
Defined.

(** Lines 115-121: data to fill without any row of the leader gives "There
    is no data for ... so it cannot be infilled". *)
Theorem leader_missing_from_input (rel : Relationship) (in_iamdf : loc)
    (df : IamDataFrame) (h : heap) :
  h !! in_iamdf = Some (OFrame df) ->
  time_col df = use_db_time_col rel ->
  (forall r, In r (data df) -> ~ In (r_variable r) (variable_leaders rel)) ->
  filler rel in_iamdf h
  = (h, inl (ValueError (NoDataToInfill (variable_leaders rel)))).
Proof.
  intros Hl Htc Hnone. unfold filler.
  rewrite bind_run, (get_frame_run _ df) by done.
  rewrite (proj2 (TimeCol_eqb_eq _ _) (eq_sym Htc)). cbn [negb].
  assert (Hu : _get_unit_of_variable df (variable_leaders rel) = []).
  { unfold _get_unit_of_variable. cbn [data filter_variable].
    assert (E : List.filter
                  (fun r => mem_string (r_variable r) (variable_leaders rel))
                  (data df) = []).
    { induction (data df) as [|r l IH]; [done|]. cbn.
      destruct (mem_string (r_variable r) (variable_leaders rel)) eqn:Em.
      - apply mem_string_In in Em. destruct (Hnone r); [by left|done].
      - apply IH. intros r' Hr'. apply Hnone. by right. }
    by rewrite E. }
  by rewrite Hu.
Qed.

Lemma leader_missing_from_input_witness :
  filler (relationship_of tdb "Emissions|CH4" "Emissions|CO2" "Gt C/yr"
            "Mt CH4/yr")
    2%positive
    (store_of tdb (filter_variable ["Emissions|CH4"%string] tdb))
  = (store_of tdb (filter_variable ["Emissions|CH4"%string] tdb),
     inl (ValueError (NoDataToInfill ["Emissions|CO2"%string]))).
Proof.
  refine (leader_missing_from_input
            (relationship_of tdb "Emissions|CH4" "Emissions|CO2" "Gt C/yr"
               "Mt CH4/yr")
            2%positive (filter_variable ["Emissions|CH4"%string] tdb)
            (store_of tdb (filter_variable ["Emissions|CH4"%string] tdb))
            _ _ _).
  - vm_compute. reflexivity.
  - reflexivity.
  - intros r Hr. vm_compute in Hr.
    repeat (destruct Hr as [<-|Hr]; [intros [H|[]]; discriminate H|]).
    destruct Hr.
Defined.

(** ** More of the filler: the unit checks *)




(** Lines 127-132: when all leader rows of the input are in one unit and it
    is not the unit recorded at build time, the call raises the ValueError
    "Units of lead variable is meant to be ..., found ..." naming the
    recorded unit and the unit found, for every relationship
    ([test_relationship_usage_wrong_unit]). *)
Theorem wrong_unit_reported (rel : Relationship) (in_iamdf : loc)
    (df : IamDataFrame) (h : heap) (found : string) :
  h !! in_iamdf = Some (OFrame df) ->
  time_col df = use_db_time_col rel ->
  (exists r, In r (data df) /\ In (r_variable r) (variable_leaders rel)) ->
  (forall r, In r (data df) -> In (r_variable r) (variable_leaders rel) ->
             r_unit r = found) ->
  found <> leader_units rel ->
  (filler rel in_iamdf h).2
  = inl (ValueError (UnitsMismatch (leader_units rel) found)).
Proof.
  intros Hl Htc Hex Hall Hne.
  apply filler_failure with df; [done|]. unfold filled.
  rewrite (proj2 (TimeCol_eqb_eq _ _) (eq_sym Htc)). cbn [negb].
  destruct (single_unit df (variable_leaders rel) found Hex Hall) as [-> ->].
  cbn [Nat.eqb negb].
  by destruct (String.eqb_spec found (leader_units rel)).
Qed.

(** [test_relationship_usage_wrong_unit]: CO2 from CO2 on [tdb], the data to
    fill relabelled "t C/yr". *)
Lemma wrong_unit_reported_witness :
  (filler (relationship_of tdb "Emissions|CO2" "Emissions|CO2" "Gt C/yr"
             "Gt C/yr")
     2%positive (store_of tdb (with_unit "t C/yr" tdownscale_df))).2
  = inl (ValueError (UnitsMismatch "Gt C/yr" "t C/yr")).
Proof.
  refine (wrong_unit_reported
            (relationship_of tdb "Emissions|CO2" "Emissions|CO2" "Gt C/yr"
               "Gt C/yr")
            2%positive (with_unit "t C/yr" tdownscale_df)
            (store_of tdb (with_unit "t C/yr" tdownscale_df))
            "t C/yr" _ _ _ _ _).
  - vm_compute. reflexivity.
  - reflexivity.
  - eexists. split; [left; reflexivity|]. left. reflexivity.
  - intros r Hr _. vm_compute in Hr.
    repeat (destruct Hr as [<-|Hr]; [reflexivity|]). destruct Hr.
  - discriminate.
Defined.

(** ** More of the builder: the rows it needs *)

(** The rows of the filtered database, in terms of the database. *)
Lemma In_filter_scenario_variable (r : Row) (scenario : string)
    (vars : list string) (db : IamDataFrame) :
  In r (data (filter_scenario_variable scenario vars db))
  <-> In r (data db) /\ pattern_match scenario (r_scenario r) = true
      /\ In (r_variable r) vars.
Proof.
  cbn [data filter_scenario_variable]. rewrite filter_In, andb_true_iff.
  by rewrite mem_string_In.
Qed.

(** The units found for a variable, in terms of the rows. *)
Lemma In_get_unit_of_variable (u : string) (df : IamDataFrame)
    (vars : list string) :
  In u (_get_unit_of_variable df vars)
  <-> exists r, In r (data df) /\ In (r_variable r) vars /\ r_unit r = u.
Proof.
  unfold _get_unit_of_variable. rewrite unique_In, in_map_iff.
  cbn [data filter_variable]. split.
  - intros [r [Hu Hr]]. apply filter_In in Hr as [Hr Hv].
    exists r. by rewrite <- mem_string_In.
  - intros [r [Hr [Hv Hu]]]. exists r. split; [done|].
    apply filter_In. by rewrite mem_string_In.
Qed.









(** What a relationship returned by [derive_relationship] has captured
    (lines 69-88): the names it was called with, the time column of the
    reference database, as the leader's unit the unit of a leader row of the
    required scenarios, and as the follower's units exactly the units of the
    follower rows of the required scenarios, each once and at least one: the
    [follower_units[0]] of line 147 is always there. *)
Theorem derive_relationship_records (self : Cruncher) (follower : string)
    (leaders : list string) (scenario : string) (db : IamDataFrame)
    (h : heap) (rel : Relationship) :
  h !! _db self = Some (OFrame db) ->
  (derive_relationship self follower leaders scenario h).2 = inr rel ->
  variable_follower rel = follower
  /\ variable_leaders rel = leaders
  /\ use_db_time_col rel = time_col db
  /\ (exists r, In r (data db)
                /\ pattern_match scenario (r_scenario r) = true
                /\ In (r_variable r) leaders
                /\ r_unit r = leader_units rel)
  /\ follower_units rel <> []
  /\ List.NoDup (follower_units rel)
  /\ (forall u, In u (follower_units rel)
                <-> exists r, In r (data db)
                              /\ pattern_match scenario (r_scenario r) = true
                              /\ r_variable r = follower
                              /\ r_unit r = u).
Proof.
  intros Hl.
  destruct (derive_relationship_run self follower leaders scenario db h Hl)
    as [_ ->].
  unfold derived. destruct (negb _); [done|].
  set (use := filter_scenario_variable scenario
                [nth 0 leaders ""%string; follower] db).
  destruct (data use) as [|r0 rest]; [done|].
  destruct (_get_unit_of_variable use leaders) as [|u us] eqn:Hu; [done|].
  destruct (_get_unit_of_variable use [follower]) as [|fu fus] eqn:Hfu;
    [done|].
  intros Hrel. injection Hrel as <-.
  cbn [variable_follower variable_leaders use_db_time_col leader_units
       follower_units].
  split; [done|]. split; [done|]. split; [done|]. split.
  { assert (H : In u (_get_unit_of_variable use leaders))
      by (rewrite Hu; by left).
    apply In_get_unit_of_variable in H as [r [Hr [Hv Hru]]].
    apply In_filter_scenario_variable in Hr as [Hr [Hp _]]. by exists r. }
  split; [done|]. split.
  { rewrite <- Hfu. apply unique_NoDup. }
  intros x. rewrite <- Hfu, In_get_unit_of_variable. split.
  - intros [r [Hr [[Hv|[]] Hru]]].
    apply In_filter_scenario_variable in Hr as [Hr [Hp _]]. by exists r.
  - intros [r [Hr [Hp [Hv Hru]]]]. exists r. split.
    + apply In_filter_scenario_variable. split; [done|]. split; [done|].
      right. by left.
    + split; [by left|done].
Qed.

(** The relationship from CO2 to CH4 of [tdb]. *)
Lemma derive_relationship_records_witness :
  variable_follower
    (relationship_of tdb "Emissions|CH4" "Emissions|CO2" "Gt C/yr"
       "Mt CH4/yr") = "Emissions|CH4"%string
  /\ variable_leaders
       (relationship_of tdb "Emissions|CH4" "Emissions|CO2" "Gt C/yr"
       "Mt CH4/yr") = ["Emissions|CO2"%string]
  /\ use_db_time_col
       (relationship_of tdb "Emissions|CH4" "Emissions|CO2" "Gt C/yr"
       "Mt CH4/yr") = time_col tdb
  /\ (exists r, In r (data tdb)
                /\ pattern_match "*" (r_scenario r) = true
                /\ In (r_variable r) ["Emissions|CO2"%string]
                /\ r_unit r
                   = leader_units
                       (relationship_of tdb "Emissions|CH4" "Emissions|CO2" "Gt C/yr"
       "Mt CH4/yr"))
  /\ follower_units
       (relationship_of tdb "Emissions|CH4" "Emissions|CO2" "Gt C/yr"
       "Mt CH4/yr") <> []
  /\ List.NoDup
       (follower_units
          (relationship_of tdb "Emissions|CH4" "Emissions|CO2" "Gt C/yr"
       "Mt CH4/yr"))
  /\ (forall u,
        In u (follower_units
                (relationship_of tdb "Emissions|CH4" "Emissions|CO2" "Gt C/yr"
       "Mt CH4/yr"))
        <-> exists r, In r (data tdb)
                      /\ pattern_match "*" (r_scenario r) = true
                      /\ r_variable r = "Emissions|CH4"%string
                      /\ r_unit r = u).
Proof.
  refine (derive_relationship_records {| _db := 1%positive |}
            "Emissions|CH4" ["Emissions|CO2"%string] "*" tdb
            {[1%positive := OFrame tdb]}
            (relationship_of tdb "Emissions|CH4" "Emissions|CO2" "Gt C/yr"
               "Mt CH4/yr") _ _).
  - vm_compute. reflexivity.
  - vm_compute. reflexivity.
Defined.



(** ** The rows the builder looks at *)

Lemma filter_scenario_variable_rejected (scenario : string)
    (vars : list string) (extra : list Row) :
  (forall r, In r extra ->
             pattern_match scenario (r_scenario r) = false
             \/ ~ In (r_variable r) vars) ->
  List.filter (fun r => pattern_match scenario (r_scenario r)
                        && mem_string (r_variable r) vars) extra = [].
Proof.
  induction extra as [|r extra IH]; intros Hrej; [done|]. cbn.
  destruct (Hrej r) as [Hp|Hv]; [by left| |].
  - rewrite Hp. cbn. apply IH. intros r' Hr'. apply Hrej. by right.
  - destruct (mem_string (r_variable r) vars) eqn:E.
    + apply mem_string_In in E. done.
    + rewrite andb_false_r. apply IH. intros r' Hr'. apply Hrej. by right.
Qed.

(** Rows of other scenarios and of other variables never influence the
    relationship (lines 60-63): two reference databases that differ by such
    rows only, wherever they stand, give the same outcome, be it a
    relationship or an error. *)
Theorem other_rows_are_ignored (self self' : Cruncher)
    (follower leader scenario : string) (tc : TimeCol)
    (before extra after : list Row) (h h' : heap) :
  h !! _db self = Some (OFrame {| time_col := tc; data := before ++ after |}) ->
  h' !! _db self'
  = Some (OFrame {| time_col := tc; data := before ++ extra ++ after |}) ->
  (forall r, In r extra ->
             pattern_match scenario (r_scenario r) = false
             \/ (r_variable r <> leader /\ r_variable r <> follower)) ->
  (derive_relationship self' follower [leader] scenario h').2
  = (derive_relationship self follower [leader] scenario h).2.
Proof.
  intros Hl Hl' Hrej.
  destruct (derive_relationship_run self follower [leader] scenario _ h Hl)
    as [_ ->].
  destruct (derive_relationship_run self' follower [leader] scenario _ h' Hl')
    as [_ ->].
  unfold derived. cbn [length Nat.eqb negb nth].
  assert (E : filter_scenario_variable scenario [leader; follower]
                {| time_col := tc; data := before ++ extra ++ after |}
              = filter_scenario_variable scenario [leader; follower]
                  {| time_col := tc; data := before ++ after |}).
  { unfold filter_scenario_variable. cbn [time_col data]. f_equal.
    rewrite !List.filter_app. rewrite (filter_scenario_variable_rejected _ _ extra).
    - done.
    - intros r Hr. destruct (Hrej r Hr) as [Hp|[Hv1 Hv2]]; [by left|].
      right. intros [Hv|[Hv|[]]]; congruence. }
  by rewrite E.
Qed.

(** [tdb] with and without its rows of the two HFC variables. *)
Lemma other_rows_are_ignored_witness :
  (derive_relationship {| _db := 1%positive |} "Emissions|CH4"
     ["Emissions|CO2"] "*" {[1%positive := OFrame tdb]}).2
  = (derive_relationship {| _db := 1%positive |} "Emissions|CH4"
       ["Emissions|CO2"] "*"
       {[1%positive :=
           OFrame (filter_variable
                     ["Emissions|CO2"; "Emissions|CH4"]%string tdb)]}).2.
Proof.
  refine (other_rows_are_ignored {| _db := 1%positive |}
            {| _db := 1%positive |} "Emissions|CH4" "Emissions|CO2" "*" Year
            (data (filter_variable
                     ["Emissions|CO2"; "Emissions|CH4"]%string tdb))
            (data (filter_variable
                     ["Emissions|HFC|C5F12"; "Emissions|HFC|C2F6"]%string tdb))
            []
            {[1%positive :=
                OFrame (filter_variable
                          ["Emissions|CO2"; "Emissions|CH4"]%string tdb)]}
            {[1%positive := OFrame tdb]} _ _ _).
  - vm_compute. reflexivity.
  - vm_compute. reflexivity.
  - intros r Hr. right. vm_compute in Hr.
    repeat (destruct Hr as [<-|Hr]; [split; discriminate|]). destruct Hr.
Defined.

(** ** More of the filler: the loop over the time steps *)

Lemma keys_getitem {V} (d : list (Z * V)) (t : Z) :
  In t (keys d) -> exists v, getitem d t = Some v.
Proof.
  induction d as [|[k w] d IH]; [done|]. cbn.
  destruct (Z.eqb_spec k t) as [->|Hne]; [by eexists|].
  intros [Hk|Hk]; [done|]. by apply IH.
Qed.

(** The columns of the wide table of the leader rows are the time steps at
    which the input has a leader row. *)
Lemma columns_of_leader_table (vars : list string) (df : IamDataFrame)
    (t : Z) :
  In t (columns (timeseries (filter_variable vars df)))
  <-> exists r, In r (data df) /\ In (r_variable r) vars /\ r_time r = t.
Proof.
  cbn [columns timeseries data filter_variable].
  rewrite sorted_unique_In, in_map_iff. split.
  - intros [r [Ht Hr]]. apply filter_In in Hr as [Hr Hv].
    exists r. by rewrite <- mem_string_In.
  - intros [r [Hr [Hv Ht]]]. exists r. split; [done|].
    apply filter_In. by rewrite mem_string_In.
Qed.

(** The loop ends without error only if every time step it visits has an
    interpolator and a column. *)
Lemma interpolate_columns_visits (d : list (Z * Interpolator))
    (times : list Z) :
  forall t0 t,
    interpolate_columns d times t0 = inr t ->
    forall time, In time times -> In time (keys d) /\ In time (columns t0).
Proof.
  induction times as [|time0 times IH]; intros t0 t Hrun time Hin; [done|].
  cbn in Hrun. destruct (getitem d time0) as [f|] eqn:Hf; [|done].
  destruct (mem_time time0 (columns t0)) eqn:Hm; [|done].
  destruct Hin as [<-|Hin].
  - split; [by eapply getitem_keys|by apply mem_time_In].
  - apply (IH _ _ Hrun time Hin).
Qed.

(** With an interpolator for every time step, a time step without column
    stops the loop with a KeyError for such a time step. *)
Lemma interpolate_columns_key_error (d : list (Z * Interpolator))
    (times : list Z) :
  forall t0,
    (forall time, In time times -> In time (keys d)) ->
    (exists time, In time times /\ ~ In time (columns t0)) ->
    exists time,
      interpolate_columns d times t0 = inl (KeyError time)
      /\ In time times /\ ~ In time (columns t0).
Proof.
  induction times as [|time0 times IH]; intros t0 Hkeys [time [Hin Hcol]];
    [done|].
  cbn. destruct (keys_getitem d time0) as [f ->]; [apply Hkeys; by left|].
  destruct (mem_time time0 (columns t0)) eqn:Hm.
  - apply mem_time_In in Hm.
    destruct Hin as [<-|Hin]; [done|].
    destruct (IH (assign_column time0 (interp f) t0)) as [t' [Hrun [Ht' Hc']]].
    + intros x Hx. apply Hkeys. by right.
    + by exists time.
    + exists t'. split; [done|]. split; [by right|done].
  - exists time0. split; [done|]. split; [by left|].
    intros H. apply mem_time_In in H. congruence.
Qed.

(** The test of line 134 lets through exactly the inputs whose time steps all
    have an interpolator. *)
Lemma no_missing_time_existsb (d : list (Z * Interpolator)) (times : list Z) :
  existsb (fun x => negb (mem_time x (keys d))) (sorted_unique Z.compare times)
  = false
  <-> forall t, In t times -> In t (keys d).
Proof.
  split.
  - intros Hex t Ht.
    destruct (mem_time t (keys d)) eqn:Hm; [by apply mem_time_In|].
    assert (H : existsb (fun x => negb (mem_time x (keys d)))
                  (sorted_unique Z.compare times) = true).
    { apply existsb_exists. exists t. split; [by apply sorted_unique_In|].
      by rewrite Hm. }
    congruence.
  - intros Hall. apply not_true_is_false. intros H.
    apply existsb_exists in H as [t [Ht Hm]].
    apply (proj1 (sorted_unique_In _ _)) in Ht. apply negb_true_iff in Hm.
    apply Hall in Ht. apply (proj2 (mem_time_In _ _)) in Ht. congruence.
Qed.

(** When the checks of lines 109-141 all pass, [filled] is what the loop and
    the relabelling make of the wide table of the leader rows. *)
Lemma filled_after_checks (rel : Relationship) (df : IamDataFrame) :
  time_col df = use_db_time_col rel ->
  (exists r, In r (data df) /\ In (r_variable r) (variable_leaders rel)) ->
  (forall r, In r (data df) -> In (r_variable r) (variable_leaders rel) ->
             r_unit r = leader_units rel) ->
  (forall r, In r (data df) -> In (r_time r) (keys (interpolators rel))) ->
  filled rel df
  = match interpolate_columns (interpolators rel)
            (sorted_unique Z.compare (map r_time (data df)))
            (timeseries (filter_variable (variable_leaders rel) df)) with
    | inl e => inl e
    | inr t =>
        match follower_units rel with
        | [] => inl IndexError
        | follower_unit :: _ =>
            inr (IamDataFrame_of
                   (set_unit follower_unit
                      (set_variable (variable_follower rel) (reset_index t))))
        end
    end.
Proof.
  intros Htc Hex Hall Hkeys. unfold filled.
  rewrite (proj2 (TimeCol_eqb_eq _ _) (eq_sym Htc)). cbn [negb].
  destruct (single_unit df (variable_leaders rel) (leader_units rel) Hex Hall)
    as [-> ->].
  cbn [Nat.eqb negb]. rewrite String.eqb_refl. cbn [negb].
  rewrite (proj2 (no_missing_time_existsb _ _)); [done|].
  intros t Ht. apply in_map_iff in Ht as [r [<- Hr]]. by apply Hkeys.
Qed.

(** What a successful [filled] went through. *)
Lemma filled_checks (rel : Relationship) (df out : IamDataFrame) :
  filled rel df = inr out ->
  time_col df = use_db_time_col rel
  /\ (exists r, In r (data df) /\ In (r_variable r) (variable_leaders rel))
  /\ (forall r, In r (data df) -> In (r_variable r) (variable_leaders rel) ->
                r_unit r = leader_units rel)
  /\ (forall r, In r (data df) ->
                In (r_time r) (keys (interpolators rel))
                /\ exists r', In r' (data df)
                              /\ In (r_variable r') (variable_leaders rel)
                              /\ r_time r' = r_time r)
  /\ follower_units rel <> [].
Proof.
  unfold filled. intros H.
  destruct (TimeCol_eqb (use_db_time_col rel) (time_col df)) eqn:Htc; [|done].
  apply TimeCol_eqb_eq in Htc. cbn [negb] in H.
  destruct (_get_unit_of_variable df (variable_leaders rel))
    as [|var_units more] eqn:Hu; [done|].
  cbn zeta in H.
  destruct (Nat.eqb_spec
              (nunique (map r_unit
                          (data (filter_variable (variable_leaders rel) df))))
              1) as [Hone|]; [|done].
  cbn [negb] in H.
  destruct (String.eqb_spec var_units (leader_units rel)) as [Heq|]; [|done].
  cbn [negb] in H.
  destruct (existsb _ _) eqn:Hex; [done|].
  destruct (interpolate_columns _ _ _) as [e|t] eqn:Hloop; [done|].
  destruct (follower_units rel) as [|fu fus]; [done|].
  apply nunique_one in Hone as [u [Hunique Hsame]].
  unfold _get_unit_of_variable in Hu. rewrite Hunique in Hu.
  injection Hu as <- <-. subst u.
  split; [done|]. split.
  { assert (Hin : In (leader_units rel)
                    (_get_unit_of_variable df (variable_leaders rel))).
    { unfold _get_unit_of_variable. rewrite Hunique. by left. }
    apply In_get_unit_of_variable in Hin as [r [Hr [Hv _]]]. by exists r. }
  split.
  { intros r Hr Hv. apply Hsame, in_map. cbn [data filter_variable].
    apply filter_In. split; [done|]. by apply mem_string_In. }
  split; [|done].
  intros r Hr.
  assert (Ht : In (r_time r) (sorted_unique Z.compare (map r_time (data df))))
    by (apply sorted_unique_In; by apply in_map).
  destruct (interpolate_columns_visits _ _ _ _ Hloop _ Ht) as [Hk Hc].
  split; [done|]. by apply columns_of_leader_table in Hc.
Qed.

(** The checks are all that a fill needs. *)
Lemma filled_succeeds (rel : Relationship) (df : IamDataFrame) :
  time_col df = use_db_time_col rel ->
  (exists r, In r (data df) /\ In (r_variable r) (variable_leaders rel)) ->
  (forall r, In r (data df) -> In (r_variable r) (variable_leaders rel) ->
             r_unit r = leader_units rel) ->
  (forall r, In r (data df) ->
             In (r_time r) (keys (interpolators rel))
             /\ exists r', In r' (data df)
                           /\ In (r_variable r') (variable_leaders rel)
                           /\ r_time r' = r_time r) ->
  follower_units rel <> [] ->
  exists out, filled rel df = inr out.
Proof.
  intros Htc Hex Hall Htimes Hfu.
  rewrite filled_after_checks; try done; [|intros r Hr; by apply Htimes].
  destruct (interpolate_columns_succeeds (interpolators rel)
              (sorted_unique Z.compare (map r_time (data df)))
              (timeseries (filter_variable (variable_leaders rel) df)))
    as [t ->].
  { intros time Hin. apply sorted_unique_In, in_map_iff in Hin
      as [r [<- Hr]].
    destruct (Htimes r Hr) as [Hk Hlead]. split; [done|].
    by apply columns_of_leader_table. }
  destruct (follower_units rel); [done|]. by eexists.
Qed.

(** When the filler returns a frame.  The call succeeds exactly when the
    input is on the time column of the reference database, has a leader row,
    has all its leader rows in the unit recorded at build time, has an
    interpolator for every one of its time steps (whatever variable the row
    is of), has a leader row at every one of its time steps, and the
    relationship has a follower unit. *)
Theorem filler_succeeds_iff (rel : Relationship) (in_iamdf : loc)
    (df : IamDataFrame) (h : heap) :
  h !! in_iamdf = Some (OFrame df) ->
  (exists l', (filler rel in_iamdf h).2 = inr l')
  <-> time_col df = use_db_time_col rel
      /\ (exists r, In r (data df) /\ In (r_variable r) (variable_leaders rel))
      /\ (forall r, In r (data df) ->
                    In (r_variable r) (variable_leaders rel) ->
                    r_unit r = leader_units rel)
      /\ (forall r, In r (data df) ->
                    In (r_time r) (keys (interpolators rel))
                    /\ exists r', In r' (data df)
                                  /\ In (r_variable r') (variable_leaders rel)
                                  /\ r_time r' = r_time r)
      /\ follower_units rel <> [].
Proof.
  intros Hl. split.
  - intros [l' Hr].
    destruct (filler_success rel in_iamdf df h l' Hl Hr) as [out [Hf _]].
    by apply filled_checks in Hf.
  - intros [Htc [Hex [Hall [Htimes Hfu]]]].
    destruct (filler_run rel in_iamdf df h Hl) as [_ Hrun].
    destruct (filled_succeeds rel df) as [out Hf]; try done.
    rewrite Hf in Hrun. destruct Hrun as [l' [Hr _]]. by exists l'.
Qed.

(** Filling [tdownscale_df] with the relationship from CO2 to CH4 of
    [tdb]. *)
Lemma filler_succeeds_iff_witness :
  (exists l',
      (filler (relationship_of tdb "Emissions|CH4" "Emissions|CO2" "Gt C/yr"
                 "Mt CH4/yr")
         2%positive (store_of tdb tdownscale_df)).2 = inr l')
  <-> time_col tdownscale_df = Year
      /\ (exists r, In r (data tdownscale_df)
                    /\ In (r_variable r) ["Emissions|CO2"%string])
      /\ (forall r, In r (data tdownscale_df) ->
                    In (r_variable r) ["Emissions|CO2"%string] ->
                    r_unit r = "Gt C/yr"%string)
      /\ (forall r, In r (data tdownscale_df) ->
                    In (r_time r)
                       (keys (interpolators
                                (relationship_of tdb "Emissions|CH4"
                                   "Emissions|CO2" "Gt C/yr" "Mt CH4/yr")))
                    /\ exists r', In r' (data tdownscale_df)
                                  /\ In (r_variable r')
                                        ["Emissions|CO2"%string]
                                  /\ r_time r' = r_time r)
      /\ ["Mt CH4/yr"%string] <> [].
Proof.
  refine (filler_succeeds_iff
            (relationship_of tdb "Emissions|CH4" "Emissions|CO2" "Gt C/yr"
               "Mt CH4/yr")
            2%positive tdownscale_df (store_of tdb tdownscale_df) _).
  vm_compute. reflexivity.
Defined.

(** Lines 143-144.  The loop visits the time steps of the whole input, while
    the table it writes to has a column only for the time steps of the
    leader rows.  When the earlier checks pass and some row (of another
    variable) stands at a time step at which the input has no leader row,
    the call raises a KeyError for such a time step. *)
Theorem time_step_without_leader_row (rel : Relationship) (in_iamdf : loc)
    (df : IamDataFrame) (h : heap) :
  h !! in_iamdf = Some (OFrame df) ->
  time_col df = use_db_time_col rel ->
  (exists r, In r (data df) /\ In (r_variable r) (variable_leaders rel)) ->
  (forall r, In r (data df) -> In (r_variable r) (variable_leaders rel) ->
             r_unit r = leader_units rel) ->
  (forall r, In r (data df) -> In (r_time r) (keys (interpolators rel))) ->
  (exists r, In r (data df)
             /\ forall r', In r' (data df) ->
                           In (r_variable r') (variable_leaders rel) ->
                           r_time r' <> r_time r) ->
  exists time,
    (filler rel in_iamdf h).2 = inl (KeyError time)
    /\ In time (map r_time (data df))
    /\ forall r', In r' (data df) ->
                  In (r_variable r') (variable_leaders rel) ->
                  r_time r' <> time.
Proof.
  intros Hl Htc Hex Hall Hkeys [r [Hr Hnone]].
  destruct (interpolate_columns_key_error (interpolators rel)
              (sorted_unique Z.compare (map r_time (data df)))
              (timeseries (filter_variable (variable_leaders rel) df)))
    as [time [Hrun [Hin Hcol]]].
  - intros time Hin. apply sorted_unique_In, in_map_iff in Hin as [x [<- Hx]].
    by apply Hkeys.
  - exists (r_time r). split; [apply sorted_unique_In; by apply in_map|].
    intros Hc. apply columns_of_leader_table in Hc as [r' [Hr' [Hv Ht]]].
    by destruct (Hnone r' Hr' Hv).
  - exists time. split.
    + apply filler_failure with df; [done|].
      rewrite filled_after_checks by done. by rewrite Hrun.
    + split; [exact (proj1 (sorted_unique_In _ _) Hin)|].
      intros r' Hr' Hv Ht. apply Hcol, columns_of_leader_table. by exists r'.
Qed.

(** The relationship from CO2 to CH4 of [tdb], and data to fill that has CO2
    in 2010 only and a row of CH4 in 2030. *)
Lemma time_step_without_leader_row_witness :
  exists time,
    (filler (relationship_of tdb "Emissions|CH4" "Emissions|CO2" "Gt C/yr"
               "Mt CH4/yr")
       2%positive (store_of tdb leader_2010_other_2030)).2
    = inl (KeyError time)
    /\ In time (map r_time (data leader_2010_other_2030))
    /\ forall r', In r' (data leader_2010_other_2030) ->
                  In (r_variable r') ["Emissions|CO2"%string] ->
                  r_time r' <> time.
Proof.
  refine (time_step_without_leader_row
            (relationship_of tdb "Emissions|CH4" "Emissions|CO2" "Gt C/yr"
               "Mt CH4/yr")
            2%positive leader_2010_other_2030
            (store_of tdb leader_2010_other_2030) _ _ _ _ _ _).
  - vm_compute. reflexivity.
  - reflexivity.
  - eexists. split; [left; reflexivity|]. left. reflexivity.
  - intros r Hr Hv. vm_compute in Hr.
    destruct Hr as [<-|[<-|[<-|[]]]]; try reflexivity.
    vm_compute in Hv. destruct Hv as [Hv|[]]. discriminate Hv.
  - intros r Hr. vm_compute in Hr.
    destruct Hr as [<-|[<-|[<-|[]]]]; vm_compute; auto.
  - eexists. split; [right; right; left; reflexivity|].
    intros r' Hr' Hv. vm_compute in Hr'.
    destruct Hr' as [<-|[<-|[<-|[]]]]; try discriminate.
    vm_compute in Hv. destruct Hv as [Hv|[]]. discriminate Hv.
Defined.

(** ** What the filler returns *)

(** Lines 142-148.  The frame a successful call returns is on the time
    column of the input, and its rows are the leader rows of the input, each
    one renamed to the follower, relabelled with the first follower unit,
    and with its value replaced by what the interpolator of its time step
    gives for it; every leader row has such an interpolator.  Rows of other
    variables leave no trace in the result. *)
Theorem filler_interpolates_leader_rows (rel : Relationship) (in_iamdf : loc)
    (df : IamDataFrame) (h : heap) (l' : loc) (out : IamDataFrame) :
  h !! in_iamdf = Some (OFrame df) ->
  (filler rel in_iamdf h).2 = inr l' ->
  (filler rel in_iamdf h).1 !! l' = Some (OFrame out) ->
  time_col out = time_col df
  /\ (forall r, In r (data df) -> In (r_variable r) (variable_leaders rel) ->
                exists f, getitem (interpolators rel) (r_time r) = Some f)
  /\ exists follower_unit,
       head (follower_units rel) = Some follower_unit
       /\ Permutation (data out)
            (map (fun r =>
                    {| r_model := r_model r; r_scenario := r_scenario r;
                       r_region := r_region r;
                       r_variable := variable_follower rel;
                       r_unit := follower_unit;
                       r_time := r_time r;
                       r_value :=
                         match getitem (interpolators rel) (r_time r) with
                         | Some f => interp f (r_value r)
                         | None => r_value r
                         end |})
               (List.filter
                  (fun r => mem_string (r_variable r) (variable_leaders rel))
                  (data df))).
Proof.
  intros Hl Hr Hout.
  destruct (filler_success rel in_iamdf df h l' Hl Hr) as [out' [Hf [_ Hout']]].
  assert (out' = out) as -> by congruence.
  destruct (filled_data rel df out Hf) as [u [Hu [Htc Hdata]]].
  destruct (filled_checks rel df out Hf) as [_ [_ [_ [Htimes _]]]].
  split; [done|]. split.
  { intros r Hin _. apply keys_getitem. by apply Htimes. }
  exists u. split; [done|]. rewrite Hdata.
  apply (Permutation_map (fill_row rel u)),
    (timeseries_data (filter_variable (variable_leaders rel) df)).
Qed.

(** Filling [tdownscale_df] with the relationship from CO2 to CH4 of
    [tdb]. *)
Lemma filler_interpolates_leader_rows_witness :
  time_col
    (returned_frame
       (filler (relationship_of tdb "Emissions|CH4" "Emissions|CO2" "Gt C/yr"
                  "Mt CH4/yr")
          2%positive (store_of tdb tdownscale_df)))
  = time_col tdownscale_df
  /\ (forall r, In r (data tdownscale_df) ->
                In (r_variable r) ["Emissions|CO2"%string] ->
                exists f,
                  getitem (interpolators
                             (relationship_of tdb "Emissions|CH4"
                                "Emissions|CO2" "Gt C/yr" "Mt CH4/yr"))
                    (r_time r) = Some f)
  /\ exists follower_unit,
       head ["Mt CH4/yr"%string] = Some follower_unit
       /\ Permutation
            (data (returned_frame
                     (filler (relationship_of tdb "Emissions|CH4"
                                "Emissions|CO2" "Gt C/yr" "Mt CH4/yr")
                        2%positive (store_of tdb tdownscale_df))))
            (map (fun r =>
                    {| r_model := r_model r; r_scenario := r_scenario r;
                       r_region := r_region r;
                       r_variable := "Emissions|CH4";
                       r_unit := follower_unit;
                       r_time := r_time r;
                       r_value :=
                         match getitem
                                 (interpolators
                                    (relationship_of tdb "Emissions|CH4"
                                       "Emissions|CO2" "Gt C/yr" "Mt CH4/yr"))
                                 (r_time r) with
                         | Some f => interp f (r_value r)
                         | None => r_value r
                         end |})
               (List.filter
                  (fun r => mem_string (r_variable r) ["Emissions|CO2"%string])
                  (data tdownscale_df))).
Proof.
  refine (filler_interpolates_leader_rows
            (relationship_of tdb "Emissions|CH4" "Emissions|CO2" "Gt C/yr"
               "Mt CH4/yr")
            2%positive tdownscale_df (store_of tdb tdownscale_df) 5%positive
            _ _ _ _);
    vm_compute; reflexivity.
Defined.

(** The filler reads nothing but the frame it is given: two calls of one
    filler on frames with the same content, in whatever stores (with or
    without the reference database, which may have changed since the filler
    was built), raise the same error or return frames with the same
    content. *)
Theorem filler_reads_only_its_input (rel : Relationship)
    (in_iamdf in_iamdf' : loc) (df : IamDataFrame) (h h' : heap) :
  h !! in_iamdf = Some (OFrame df) ->
  h' !! in_iamdf' = Some (OFrame df) ->
  (forall e, (filler rel in_iamdf h).2 = inl e ->
             (filler rel in_iamdf' h').2 = inl e)
  /\ (forall l out,
         (filler rel in_iamdf h).2 = inr l ->
         (filler rel in_iamdf h).1 !! l = Some (OFrame out) ->
         exists l', (filler rel in_iamdf' h').2 = inr l'
                    /\ (filler rel in_iamdf' h').1 !! l' = Some (OFrame out)).
Proof.
  intros Hl Hl'.
  destruct (filler_run rel in_iamdf df h Hl) as [_ Hrun].
  destruct (filler_run rel in_iamdf' df h' Hl') as [_ Hrun'].
  destruct (filled rel df) as [e0|out0].
  - split; [|intros l out Hr; congruence].
    intros e He. congruence.
  - destruct Hrun as [l0 [Hr0 [_ Hout0]]].
    destruct Hrun' as [l0' [Hr0' [_ Hout0']]].
    split; [intros e He; congruence|].
    intros l out Hr Hout. assert (l = l0) as -> by congruence.
    assert (out = out0) as -> by congruence. by exists l0'.
Qed.

(** The filler from CO2 to CH4 of [tdb] on [tdownscale_df], once next to
    [tdb] and once in a store that holds nothing else. *)
Lemma filler_reads_only_its_input_witness :
  (forall e,
      (filler (relationship_of tdb "Emissions|CH4" "Emissions|CO2" "Gt C/yr"
                 "Mt CH4/yr")
         2%positive (store_of tdb tdownscale_df)).2 = inl e ->
      (filler (relationship_of tdb "Emissions|CH4" "Emissions|CO2" "Gt C/yr"
                 "Mt CH4/yr")
         7%positive {[7%positive := OFrame tdownscale_df]}).2 = inl e)
  /\ (forall l out,
         (filler (relationship_of tdb "Emissions|CH4" "Emissions|CO2"
                    "Gt C/yr" "Mt CH4/yr")
            2%positive (store_of tdb tdownscale_df)).2 = inr l ->
         (filler (relationship_of tdb "Emissions|CH4" "Emissions|CO2"
                    "Gt C/yr" "Mt CH4/yr")
            2%positive (store_of tdb tdownscale_df)).1 !! l
         = Some (OFrame out) ->
         exists l',
           (filler (relationship_of tdb "Emissions|CH4" "Emissions|CO2"
                      "Gt C/yr" "Mt CH4/yr")
              7%positive {[7%positive := OFrame tdownscale_df]}).2 = inr l'
           /\ (filler (relationship_of tdb "Emissions|CH4" "Emissions|CO2"
                         "Gt C/yr" "Mt CH4/yr")
                 7%positive {[7%positive := OFrame tdownscale_df]}).1 !! l'
              = Some (OFrame out)).
Proof.
  refine (filler_reads_only_its_input
            (relationship_of tdb "Emissions|CH4" "Emissions|CO2" "Gt C/yr"
               "Mt CH4/yr")
            2%positive 7%positive tdownscale_df (store_of tdb tdownscale_df)
            {[7%positive := OFrame tdownscale_df]} _ _);
    vm_compute; reflexivity.
Defined.

(** ** The exceptions of a filler *)





(** ** Rows of other variables in the data to fill *)

Lemma filter_variable_again (vars : list string) (df : IamDataFrame) :
  filter_variable vars (filter_variable vars df) = filter_variable vars df.
Proof.
  unfold filter_variable. cbn [time_col data]. f_equal.
  induction (data df) as [|r l IH]; [done|]. cbn.
  destruct (mem_string (r_variable r) vars) eqn:E; [|done].
  cbn. by rewrite E, IH.
Qed.

(** Rows of other variables can make a fill fail (through their time steps,
    lines 133-144) but never change what it returns: whenever the filler
    returns a frame for an input, it returns a frame with the same content
    for the leader rows of that input alone. *)
Theorem leader_rows_suffice (rel : Relationship) (in_iamdf in_iamdf' : loc)
    (df : IamDataFrame) (h h' : heap) (l : loc) (out : IamDataFrame) :
  h !! in_iamdf = Some (OFrame df) ->
  h' !! in_iamdf'
  = Some (OFrame (filter_variable (variable_leaders rel) df)) ->
  (filler rel in_iamdf h).2 = inr l ->
  (filler rel in_iamdf h).1 !! l = Some (OFrame out) ->
  exists l',
    (filler rel in_iamdf' h').2 = inr l'
    /\ (filler rel in_iamdf' h').1 !! l' = Some (OFrame out).
Proof.
  intros Hl Hl' Hr Hout.
  destruct (filler_success rel in_iamdf df h l Hl Hr) as [out0 [Hf [_ Hout0]]].
  assert (out0 = out) as -> by congruence.
  destruct (filled_checks rel df out Hf) as [Htc [[r0 [Hr0 Hv0]] [Hall [Htimes Hfu]]]].
  set (lead := filter_variable (variable_leaders rel) df) in *.
  assert (Hlead : forall r, In r (data lead)
                            <-> In r (data df)
                                /\ In (r_variable r) (variable_leaders rel)).
  { intros r. unfold lead. cbn [data filter_variable].
    by rewrite filter_In, mem_string_In. }
  destruct (filled_succeeds rel lead) as [out' Hf']; try done.
  - exists r0. split; [by apply Hlead|done].
  - intros r Hin _. apply Hlead in Hin as [Hin Hv]. by apply Hall.
  - intros r Hin. apply Hlead in Hin as [Hin Hv]. split.
    + by apply Htimes.
    + exists r. split; [by apply Hlead|done].
  - destruct (filled_data rel df out Hf) as [u [Hu [Hc Hdata]]].
    destruct (filled_data rel lead out' Hf') as [u' [Hu' [Hc' Hdata']]].
    assert (u' = u) as -> by congruence.
    unfold lead in Hdata'. rewrite filter_variable_again in Hdata'.
    assert (out' = out) as ->.
    { destruct out, out'. cbn in *. congruence. }
    destruct (filler_run rel in_iamdf' lead h' Hl') as [_ Hrun].
    rewrite Hf' in Hrun. destruct Hrun as [l' [Hr' [_ Hout']]]. by exists l'.
Qed.

(** The filler from CO2 to CH4 of [tdb] on [tdb] itself and on its rows of
    CO2 alone. *)
Lemma leader_rows_suffice_witness :
  exists l',
    (filler (relationship_of tdb "Emissions|CH4" "Emissions|CO2" "Gt C/yr"
               "Mt CH4/yr")
       2%positive
       (store_of tdb (filter_variable ["Emissions|CO2"%string] tdb))).2
    = inr l'
    /\ (filler (relationship_of tdb "Emissions|CH4" "Emissions|CO2" "Gt C/yr"
                  "Mt CH4/yr")
          2%positive
          (store_of tdb (filter_variable ["Emissions|CO2"%string] tdb))).1
       !! l'
       = Some (OFrame
                 (returned_frame
                    (filler (relationship_of tdb "Emissions|CH4"
                               "Emissions|CO2" "Gt C/yr" "Mt CH4/yr")
                       1%positive {[1%positive := OFrame tdb]}))).
Proof.
  refine (leader_rows_suffice
            (relationship_of tdb "Emissions|CH4" "Emissions|CO2" "Gt C/yr"
               "Mt CH4/yr")
            1%positive 2%positive tdb {[1%positive := OFrame tdb]}
            (store_of tdb (filter_variable ["Emissions|CO2"%string] tdb))
            4%positive _ _ _ _ _);
    vm_compute; reflexivity.
Defined.
